(** * Lab-management: authentication and tenant-context core

    A shallow embedding of
      - [core/middleware.py]  (thread-local tenant context, [TenantMiddleware]),
      - [core/auth.py]        ([AuthenticatedUser], [AuthenticationService]),
      - [core/jwt_auth.py]    ([JwtAuthenticationStrategy]),
      - [tenants/models.py]   ([Tenant.deactivate], [Tenant.activate]),
      - [accounts/models.py]  (the [User] row),
    followed by the properties the specification states about them.

    Python objects that are mutated in place (the request, the thread-local
    namespace, the database, a model instance) live in an explicit state;
    a Python exception is the [Raise] outcome of a computation. *)

From stdpp Require Import base gmap strings list.
From Stdlib Require Import ZArith Ascii.

Local Open Scope Z_scope.

(** ** Python outcomes: a value or a raised exception *)

(** The exception classes that can travel through the modelled code. *)
Inductive exn : Type :=
| CustomAuthenticationFailed (detail : string)   (* core.exception *)
| InvalidToken                                   (* rest_framework_simplejwt *)
| TokenError                                     (* rest_framework_simplejwt *)
| ExpiredSignatureError                          (* jwt *)
| InvalidTokenError                              (* jwt *)
| DoesNotExist                                   (* Model.DoesNotExist *)
| DatabaseError                                  (* django.db *)
| TypeError
| AttributeError
| IndexError
| OtherError (name : string).

Inductive result (A : Type) : Type :=
| Ok (a : A)
| Raise (e : exn).
Arguments Ok {A} a.
Arguments Raise {A} e.

(** A computation over a mutable store [S]: it always leaves a store behind,
    also when it raises (mutations made before a [raise] are kept). *)
Definition M (S A : Type) : Type := S -> S * result A.

Definition ret {S A} (a : A) : M S A := fun s => (s, Ok a).
Definition raise {S A} (e : exn) : M S A := fun s => (s, Raise e).
Definition bind {S A B} (m : M S A) (k : A -> M S B) : M S B :=
  fun s => match m s with
           | (s', Ok a) => k a s'
           | (s', Raise e) => (s', Raise e)
           end.
Definition gets {S A} (f : S -> A) : M S A := fun s => (s, Ok (f s)).
Definition modify {S} (f : S -> S) : M S unit := fun s => (f s, Ok tt).

(** [try: body except <classes>: handler] *)
Definition try_except {S A} (body : M S A) (catches : exn -> bool)
    (handler : exn -> M S A) : M S A :=
  fun s => match body s with
           | (s', Ok a) => (s', Ok a)
           | (s', Raise e) => if catches e then handler e s' else (s', Raise e)
           end.

Declare Scope py_scope.
Delimit Scope py_scope with py.
Notation "x <- m ;; k" := (bind m (fun x => k))
  (at level 20, m at level 99, k at level 200, only parsing) : py_scope.
Notation "m ;; k" := (bind m (fun _ => k))
  (at level 100, k at level 200, right associativity, only parsing) : py_scope.
Local Open Scope py_scope.

(** [s.startswith(p)] *)
Definition startswith (s p : string) : bool := String.prefix p s.

(** [any(path.startswith(p) for p in prefixes)] *)
Definition any_startswith (path : string) (prefixes : list string) : bool :=
  existsb (startswith path) prefixes.
Arguments any_startswith : simpl never.

(** [s.split(sep)] for a one-character separator: every occurrence cuts, so
    consecutive separators give empty pieces and the result is never empty. *)
Fixpoint split (sep : ascii) (s : string) : list string :=
  match s with
  | EmptyString => [EmptyString]
  | String c rest =>
      if Ascii.eqb c sep then EmptyString :: split sep rest
      else match split sep rest with
           | [] => [String c EmptyString]
           | piece :: pieces => String c piece :: pieces
           end
  end.

(** Truthiness of an optional string: [None] and [""] are falsy. *)
Definition truthy_str (o : option string) : bool :=
  match o with
  | None => false
  | Some EmptyString => false
  | Some _ => true
  end.

(** ** Persistent entities *)

Module Tenant.
(** A row of table [tenants]; a [Tenant] instance in memory carries the same
    fields. [Tenant.settings] (a JSON document) is kept as its text. *)
Record t : Type := mk {
  pk : Z;
  name : string;
  slug : string;
  is_active : bool;
  contact_email : option string;
  contact_phone : option string;
  address_line1 : option string;
  address_line2 : option string;
  city : option string;
  state : option string;
  country : option string;
  postal_code : option string;
  settings : string;
  created_at : Z;
  updated_at : Z
}.

(** [self.is_active = b] *)
Definition set_is_active (b : bool) (x : t) : t :=
  mk (pk x) (name x) (slug x) b (contact_email x) (contact_phone x)
     (address_line1 x) (address_line2 x) (city x) (state x) (country x)
     (postal_code x) (settings x) (created_at x) (updated_at x).
End Tenant.

Inductive UserRole : Type := TENANT_ADMIN | TENANT_USER | ADMIN.

Module User.
(** A row of table [users]. [tenant_id] is the nullable foreign key behind
    [User.tenant] (related name [users] on the tenant side). *)
Record t : Type := mk {
  pk : Z;
  tenant_id : option Z;
  email : string;
  password : string;
  first_name : string;
  last_name : string;
  phone_number : option string;
  address_line1 : string;
  address_line2 : option string;
  city : string;
  state : string;
  country : string;
  postal_code : string;
  role : UserRole;
  is_active : bool;
  is_staff : bool;
  is_superuser : bool;
  last_login : option Z;
  last_login_ip : option string;
  created_at : Z;
  updated_at : Z
}.

Definition set_is_active (b : bool) (x : t) : t :=
  mk (pk x) (tenant_id x) (email x) (password x) (first_name x) (last_name x)
     (phone_number x) (address_line1 x) (address_line2 x) (city x) (state x)
     (country x) (postal_code x) (role x) b (is_staff x) (is_superuser x)
     (last_login x) (last_login_ip x) (created_at x) (updated_at x).
End User.

(** The two tables the core touches, keyed by primary key. *)
Record Database : Type := mkDatabase {
  tenants : gmap Z Tenant.t;
  users : gmap Z User.t
}.

Module TenantModel.
(** A model method runs on the instance [self] and the database. The
    instance has a primary key: it was loaded from the database or saved
    to it before (an instance that was never saved is not modelled). *)
Record Store : Type := mkStore { self : Tenant.t; database : Database }.

(** [self.save(update_fields=['is_active'])]: an UPDATE of that one column
    of the row with the instance's primary key; Django raises
    [DatabaseError] when the UPDATE matches no row. *)
Definition save_is_active : M Store unit :=
  fun st =>
    let me := self st in
    let d := database st in
    match tenants d !! Tenant.pk me with
    | Some row =>
        (mkStore me
           (mkDatabase
              (<[Tenant.pk me := Tenant.set_is_active (Tenant.is_active me) row]>
                 (tenants d))
              (users d)),
         Ok tt)
    | None => (st, Raise DatabaseError)
    end.

(** [self.users.update(is_active=b)]: one UPDATE over the users whose
    foreign key is this tenant. *)
Definition users_update_is_active (b : bool) : M Store unit :=
  modify (fun st =>
    let k := Tenant.pk (self st) in
    let d := database st in
    mkStore (self st)
      (mkDatabase (tenants d)
         ((fun u : User.t =>
             if decide (User.tenant_id u = Some k)
             then User.set_is_active b u else u) <$> users d))).

Definition assign_is_active (b : bool) : M Store unit :=
  modify (fun st => mkStore (Tenant.set_is_active b (self st)) (database st)).

(** [Tenant.deactivate] *)
Definition deactivate : M Store unit :=
  assign_is_active false ;;
  save_is_active ;;
  users_update_is_active false.

(** [Tenant.activate] *)
Definition activate : M Store unit :=
  assign_is_active true ;;
  save_is_active.
End TenantModel.

(** ** Requests, responses and the shared state *)

(** Thread identities. *)
Abbreviation thread := nat (only parsing).

(** The request object: what the core reads ([path], [headers], [META]) and
    the attributes it attaches ([request.user_id], [request.role],
    [request.tenant]; [None] = attribute not set). *)
Record Request : Type := mkRequest {
  path : string;
  headers : gmap string string;
  META : gmap string string;
  attr_user_id : option Z;
  attr_role : option (option string);
  attr_tenant : option Tenant.t
}.

(** [JsonResponse(data, status=...)] *)
Record JsonResponse : Type := mkJsonResponse {
  data : list (string * string);
  status : Z
}.

Definition HTTP_403_FORBIDDEN : Z := 403.

(** Ghost record of the effects the specification speaks about. *)
Inductive effect : Type :=
| CallValidator (token : string)            (* token_validation entered *)
| SetTenant (t : thread) (tenant : option Tenant.t)  (* set_current_tenant *)
| CallDownstream (t : thread).              (* get_response(request) *)

(** [thread_locals] is the attribute [tenant] of the module-level
    [_thread_locals = threading.local()]: one namespace per thread, so the
    attribute is looked up under the running thread; a missing key means
    the attribute is not set in that thread. *)
Record State : Type := mkState {
  request : Request;
  thread_locals : gmap nat (option Tenant.t);
  db : Database;
  log : list effect
}.

Definition with_request (r : Request) (s : State) : State :=
  mkState r (thread_locals s) (db s) (log s).
Definition with_thread_locals (l : gmap nat (option Tenant.t)) (s : State) : State :=
  mkState (request s) l (db s) (log s).
Definition record (e : effect) (s : State) : State :=
  mkState (request s) (thread_locals s) (db s) (log s ++ [e]).

(** The parsed token: the two claims the code reads with [payload.get]. *)
Record Token : Type := mkToken {
  claim_user_id : option Z;
  claim_role : option string
}.

(** What the repository imports but does not define:
    - [PUBLIC_URL] from [core/public_url.py];
    - [UntypedToken(token)] of rest_framework_simplejwt, which returns the
      parsed token or raises;
    - the truth value Python gives a token object ([if not payload]). *)
Class Collaborators : Type := {
  PUBLIC_URL : list string;
  UntypedToken : string -> result Token;
  token_bool : Token -> bool
}.

(** ** core/middleware.py: the tenant context *)

(** [getattr(_thread_locals, 'tenant', None)] *)
Definition get_current_tenant (me : thread) : M State (option Tenant.t) :=
  gets (fun s => match thread_locals s !! me with
                 | Some v => v
                 | None => None
                 end).

(** [_thread_locals.tenant = tenant] *)
Definition set_current_tenant (me : thread) (tenant : option Tenant.t) : M State unit :=
  modify (fun s =>
    record (SetTenant me tenant)
      (with_thread_locals (<[me := tenant]> (thread_locals s)) s)).

(** [hasattr(_thread_locals, 'tenant')] *)
Definition hasattr_tenant (me : thread) : M State bool :=
  gets (fun s => bool_decide (is_Some (thread_locals s !! me))).

(** [delattr(_thread_locals, 'tenant')]: [AttributeError] when not set. *)
Definition delattr_tenant (me : thread) : M State unit :=
  fun s => match thread_locals s !! me with
           | Some _ => (with_thread_locals (delete me (thread_locals s)) s, Ok tt)
           | None => (s, Raise AttributeError)
           end.

Definition clear_current_tenant (me : thread) : M State unit :=
  present <- hasattr_tenant me ;;
  if present then delattr_tenant me else ret tt.

(** ** core/auth.py and core/jwt_auth.py *)

Module AuthenticatedUser.
Record t : Type := mk {
  id : Z;
  role : option string;
  pk : Z;
  is_authenticated : bool;
  tenant : option Tenant.t;
  is_staff : bool
}.
End AuthenticatedUser.

(** [user.tenant]: follows the foreign key; a dangling key raises
    [Tenant.DoesNotExist]. *)
Definition user_tenant (u : User.t) : M State (option Tenant.t) :=
  match User.tenant_id u with
  | None => ret None
  | Some k =>
      d <- gets db ;;
      match tenants d !! k with
      | Some t => ret (Some t)
      | None => raise DoesNotExist
      end
  end.

(** [AuthenticatedUser(user_id, role, user)] with [is_authenticated=True]. *)
Definition new_AuthenticatedUser (user_id : Z) (role : option string) (user : User.t)
    : M State AuthenticatedUser.t :=
  tn <- user_tenant user ;;
  ret (AuthenticatedUser.mk user_id role user_id true tn (User.is_staff user)).

Module JwtAuthenticationStrategy.
Section Strategy.
Context `{Collaborators}.

(** The classes named by the [except] clause of [token_validation]. *)
Definition token_errors (e : exn) : bool :=
  match e with
  | InvalidToken | TokenError | ExpiredSignatureError | InvalidTokenError => true
  | _ => false
  end.

Definition token_validation (token : string) : M State Token :=
  modify (record (CallValidator token)) ;;
  try_except
    (fun s => (s, UntypedToken token))
    token_errors
    (fun _ => raise (CustomAuthenticationFailed "Token expired or Invalid")).

(** [User.objects.get(id=user_id)] *)
Definition get_user (user_id : Z) : M State User.t :=
  d <- gets db ;;
  match users d !! user_id with
  | Some u => ret u
  | None => raise DoesNotExist
  end.

(** [request.user_id = user_id; request.role = role] *)
Definition attach_claims (user_id : Z) (role : option string) : M State unit :=
  modify (fun s =>
    let r := request s in
    with_request
      (mkRequest (path r) (headers r) (META r) (Some user_id) (Some role)
         (attr_tenant r)) s).

(** [auth_header.split(' ')[1]] *)
Definition second_piece (auth_header : string) : M State string :=
  match split " "%char auth_header !! 1%nat with
  | Some token => ret token
  | None => raise IndexError
  end.

Definition authenticate : M State (option AuthenticatedUser.t * string) :=
  r <- gets request ;;
  let auth_header := headers r !! "Authorization" in
  let auth_header :=
    if truthy_str auth_header then auth_header
    else META r !! "HTTP_AUTHORIZATION" in
  match auth_header with
  | None =>
      raise (CustomAuthenticationFailed
               "Authorization Details is missing or invalid")
  | Some h =>
      if negb (truthy_str (Some h)) || negb (startswith h "Bearer ")
      then raise (CustomAuthenticationFailed
                    "Authorization Details is missing or invalid")
      else
        token <- second_piece h ;;
        payload <- token_validation token ;;
        if negb (token_bool payload)
        then raise (CustomAuthenticationFailed "Token expired or Invalid")
        else
          match claim_user_id payload with
          | None => raise (CustomAuthenticationFailed "Token expired or Invalid")
          | Some user_id =>
              try_except
                (attach_claims user_id (claim_role payload))
                (fun _ => true)
                (fun _ => raise (CustomAuthenticationFailed "User not found")) ;;
              current_user <- get_user user_id ;;
              user <- new_AuthenticatedUser user_id (claim_role payload) current_user ;;
              ret (Some user, token)
          end
  end.
End Strategy.
End JwtAuthenticationStrategy.

Module AuthenticationService.
Section Service.
Context `{Collaborators}.

Definition is_custom_failure (e : exn) : bool :=
  match e with CustomAuthenticationFailed _ => true | _ => false end.

(** [None] for a public path; otherwise the strategy's answer, with a
    [CustomAuthenticationFailed] caught and raised again. *)
Definition authenticate : M State (option (option AuthenticatedUser.t * string)) :=
  r <- gets request ;;
  if any_startswith (path r) PUBLIC_URL then ret None
  else
    try_except
      (ut <- JwtAuthenticationStrategy.authenticate ;; ret (Some ut))
      is_custom_failure
      (fun custom_auth => raise custom_auth).
End Service.
End AuthenticationService.

(** ** core/middleware.py: [TenantMiddleware] *)

Module TenantMiddleware.
Section Middleware.
Context `{Collaborators}.

Definition EXCLUDED_PATHS : list string :=
  [ "/admin/";
    "/api/v1/auth/register/";
    "/api/v1/auth/login/";
    "/api/v1/auth/refresh/";
    "/api/v1/tenants/register/";
    "/api/v1/tenants/create-tenant/";
    "/swagger/";
    "/redoc/";
    "/api/schema/" ].

Definition credential_missing : JsonResponse :=
  mkJsonResponse
    [ ("error", "Credential Missing");
      ("detail", "unable to authenticate your account") ]
    HTTP_403_FORBIDDEN.

Definition no_tenant : JsonResponse :=
  mkJsonResponse
    [ ("error", "No tenant associated with user");
      ("detail", "Your account is not associated with any organization.") ]
    HTTP_403_FORBIDDEN.

Definition tenant_inactive : JsonResponse :=
  mkJsonResponse
    [ ("error", "Tenant inactive");
      ("detail", "Your organization account has been deactivated.") ]
    HTTP_403_FORBIDDEN.

(** [request.tenant = tenant] *)
Definition attach_tenant (tenant : Tenant.t) : M State unit :=
  modify (fun s =>
    let r := request s in
    with_request
      (mkRequest (path r) (headers r) (META r) (attr_user_id r) (attr_role r)
         (Some tenant)) s).

(** [process_request]; [None] lets the request through. The [print] of the
    path writes to standard output only and is left out. Unpacking
    [user, token = None] raises [TypeError]; an [AuthenticatedUser] always
    has the attribute [tenant], and a model instance is truthy. *)
Definition process_request (me : thread) : M State (option JsonResponse) :=
  clear_current_tenant me ;;
  r <- gets request ;;
  if any_startswith (path r) EXCLUDED_PATHS then ret None
  else
    answer <- AuthenticationService.authenticate ;;
    match answer with
    | None => raise TypeError
    | Some (user, token) =>
        match user with
        | None => ret (Some credential_missing)
        | Some user =>
            match AuthenticatedUser.tenant user with
            | None => ret (Some no_tenant)
            | Some tenant =>
                if negb (Tenant.is_active tenant) then ret (Some tenant_inactive)
                else
                  set_current_tenant me (Some tenant) ;;
                  attach_tenant tenant ;;
                  ret None
            end
        end
    end.

Definition process_response (me : thread) (response : JsonResponse)
    : M State JsonResponse :=
  clear_current_tenant me ;;
  ret response.

Definition process_exception (me : thread) (exception : exn)
    : M State (option JsonResponse) :=
  clear_current_tenant me ;;
  ret None.

(** How the framework drives the three hooks for one request
    ([MiddlewareMixin.__call__] and the handler's exception conversion):
    a response from [process_request] short-circuits; otherwise the
    downstream handler [get_response] runs; when it raises,
    [process_exception] is called and, as it returns [None], the framework
    turns the exception into the response [on_error exception]; every
    response then goes through [process_response]. An exception raised
    by [process_request] itself leaves the middleware. *)
Definition call (me : thread) (get_response : M State JsonResponse)
    (on_error : exn -> JsonResponse) : M State JsonResponse :=
  early <- process_request me ;;
  match early with
  | Some response => process_response me response
  | None =>
      response <-
        try_except
          (modify (record (CallDownstream me)) ;; get_response)
          (fun _ => true)
          (fun exception =>
             handled <- process_exception me exception ;;
             match handled with
             | Some response => ret response
             | None => ret (on_error exception)
             end) ;;
      process_response me response
  end.
End Middleware.
End TenantMiddleware.

(** ** Requests served concurrently *)

(** What one thread does in one scheduling step. Threads share the state;
    the scheduler decides the interleaving. *)
Inductive action : Type :=
| ProcessRequest (r : Request)
| GetCurrentTenant
| ProcessResponse (response : JsonResponse)
| ProcessException (exception : exn).

Section Scheduler.
Context `{Collaborators}.

(** One step of thread [me]; a [GetCurrentTenant] step reports what the
    thread read. *)
Definition step (me : thread) (a : action) (s : State)
    : State * option (option Tenant.t) :=
  match a with
  | ProcessRequest r =>
      (fst (TenantMiddleware.process_request me (with_request r s)), None)
  | GetCurrentTenant =>
      match get_current_tenant me s with
      | (s', Ok v) => (s', Some v)
      | (s', Raise _) => (s', None)
      end
  | ProcessResponse response =>
      (fst (TenantMiddleware.process_response me response s), None)
  | ProcessException exception =>
      (fst (TenantMiddleware.process_exception me exception s), None)
  end.

(** Runs a schedule; returns the final state and, in order, every value a
    thread read from the context. *)
Fixpoint run (schedule : list (nat * action)) (s : State)
    : State * list (nat * option Tenant.t) :=
  match schedule with
  | [] => (s, [])
  | (me, a) :: rest =>
      let '(s1, seen) := step me a s in
      let '(s2, reads) := run rest s1 in
      (s2, match seen with
           | Some v => (me, v) :: reads
           | None => reads
           end)
  end.

(** The tenant a request is bound to: the tenant of the identity the
    authenticator resolves for it. *)
Definition bound_tenant (r : Request) (s : State) : option Tenant.t :=
  match AuthenticationService.authenticate (with_request r s) with
  | (_, Ok (Some (Some user, _))) => AuthenticatedUser.tenant user
  | _ => None
  end.

(** The action belongs to the processing of request [r]. *)
Definition serves (r : Request) (a : action) : Prop :=
  match a with
  | ProcessRequest r' => r' = r
  | _ => True
  end.
End Scheduler.

(** ** core/permission.py *)

(** [request.user] as a permission class meets it: [None], the anonymous
    user of the framework ([is_authenticated] false, no [role], no
    [tenant]), or the identity built by the authenticator. *)
Inductive request_user : Type :=
| NoUser
| AnonymousUser
| Identity (u : AuthenticatedUser.t).

(** [obj.tenant] of the object a permission is asked about: [None] when the
    object has no attribute [tenant], else its value. *)
Abbreviation tenant_attribute := (option (option Tenant.t)) (only parsing).

(** [a == b] on tenant references: [None] equals [None] only; two model
    instances are equal when their primary keys are. *)
Definition tenant_eq (a b : option Tenant.t) : bool :=
  match a, b with
  | None, None => true
  | Some x, Some y => bool_decide (Tenant.pk x = Tenant.pk y)
  | _, _ => false
  end.

(** [UserRole.TENANT_ADMIN], [UserRole.TENANT_USER], [UserRole.ADMIN] as
    stored and as compared with a token's role. *)
Definition role_value (r : UserRole) : string :=
  match r with
  | TENANT_ADMIN => "tenant_admin"
  | TENANT_USER => "tenant_user"
  | ADMIN => "admin"
  end.

(** [permissions.SAFE_METHODS] *)
Definition SAFE_METHODS : list string := ["GET"; "HEAD"; "OPTIONS"].

Module IsTenantAdmin.
(** The truth value of
    [request.user and request.user.is_authenticated and
     request.user.role == UserRole.TENANT_ADMIN]. *)
Definition has_permission (user : request_user) : bool :=
  match user with
  | NoUser => false
  | AnonymousUser => false
  | Identity u =>
      AuthenticatedUser.is_authenticated u
      && bool_decide (AuthenticatedUser.role u = Some (role_value TENANT_ADMIN))
  end.
End IsTenantAdmin.

Module IsTenantUser.
Definition has_permission (user : request_user) : bool :=
  match user with
  | NoUser => false
  | AnonymousUser => false
  | Identity u =>
      AuthenticatedUser.is_authenticated u
      && bool_decide (AuthenticatedUser.tenant u <> None)
  end.
End IsTenantUser.

Module IsTenantAdminOrReadOnly.
Definition has_permission (user : request_user) (method : string) : bool :=
  match user with
  | NoUser => false
  | AnonymousUser => false
  | Identity u =>
      if negb (AuthenticatedUser.is_authenticated u) then false
      else if bool_decide (method ∈ SAFE_METHODS) then true
      else bool_decide (AuthenticatedUser.role u = Some (role_value TENANT_ADMIN))
  end.
End IsTenantAdminOrReadOnly.

Module IsSameTenant.
Definition has_object_permission (user : request_user) (obj : tenant_attribute)
    : bool :=
  match obj with
  | None => false
  | Some obj_tenant =>
      match user with
      | NoUser => false
      | AnonymousUser => false
      | Identity u => tenant_eq (AuthenticatedUser.tenant u) obj_tenant
      end
  end.
End IsSameTenant.

(** ** patients/views.py: which permissions guard the test types *)

Inductive permission : Type :=
| PIsTenantAdmin
| PIsTenantUser
| PIsSameTenant.

(** [TestTypeViewSet.get_permissions] *)
Definition TestTypeViewSet_get_permissions (action : string) : list permission :=
  if bool_decide (action ∈ ["create"; "update"; "partial_update"; "destroy"])
  then [PIsTenantAdmin; PIsSameTenant]
  else [PIsTenantUser; PIsSameTenant].

(** [TenantFilteredViewSet.permission_classes] *)
Definition TenantFilteredViewSet_permission_classes : list permission :=
  [PIsTenantUser; PIsSameTenant].

(** A class that does not define [has_permission] (here [IsSameTenant])
    inherits the one that answers [True]. *)
Definition has_permission (p : permission) (user : request_user) : bool :=
  match p with
  | PIsTenantAdmin => IsTenantAdmin.has_permission user
  | PIsTenantUser => IsTenantUser.has_permission user
  | PIsSameTenant => true
  end.

(** Likewise for [has_object_permission]. *)
Definition has_object_permission (p : permission) (user : request_user)
    (obj : tenant_attribute) : bool :=
  match p with
  | PIsTenantAdmin => true
  | PIsTenantUser => true
  | PIsSameTenant => IsSameTenant.has_object_permission user obj
  end.

(** The framework's [check_permissions] and [check_object_permissions]:
    every permission of the view has to agree. *)
Definition check_permissions (ps : list permission) (user : request_user) : bool :=
  forallb (fun p => has_permission p user) ps.
Definition check_object_permissions (ps : list permission) (user : request_user)
    (obj : tenant_attribute) : bool :=
  forallb (fun p => has_object_permission p user obj) ps.

(** ** accounts/serializer.py *)

(** What a serializer hook gives back: the value, or the
    [serializers.ValidationError] it raised with its message. Any other
    exception is a [Raise] around it. *)
Inductive checked (A : Type) : Type :=
| Accepted (a : A)
| ValidationError (detail : string).
Arguments Accepted {A} a.
Arguments ValidationError {A} detail.

(** What the repository uses of the user manager and of Django's password
    hashing, neither defined in it:
    - [user.check_password(raw)], as a test of the raw password against the
      stored hash (the re-hash Django may do on a match touches only that
      hash and is left out);
    - [User.objects.create_user(tenant=..., password=..., **fields)]. *)
Class Accounts : Type := {
  check_password : string -> string -> bool;
  create_user : Tenant.t -> string -> gmap string string -> M State User.t
}.

(** [user.tenant] read off a database: follows the foreign key; a dangling
    key raises [Tenant.DoesNotExist]. *)
Definition fk_tenant (d : Database) (u : User.t) : result (option Tenant.t) :=
  match User.tenant_id u with
  | None => Ok None
  | Some k =>
      match tenants d !! k with
      | Some t => Ok (Some t)
      | None => Raise DoesNotExist
      end
  end.

(** [User.objects.filter(email=email)], as the rows that match. *)
Definition users_with_email (d : Database) (email : string) : list User.t :=
  filter (fun u : User.t => User.email u = email) (map_to_list (users d)).*2.

(** The later of two rows under [ordering = ['-created_at']]. *)
Definition newer (u v : User.t) : User.t :=
  if User.created_at u <? User.created_at v then v else u.

(** [.first()]: the newest match, [None] without a match. The column is
    unique, so at most one row matches in a database that keeps the
    constraint. *)
Definition first_by_email (d : Database) (email : string) : option User.t :=
  match users_with_email d email with
  | [] => None
  | u :: rest => Some (foldl newer u rest)
  end.

(** The message [Must include "email" and "password".], with its quotation
    marks (character 34). *)
Definition must_include_message : string :=
  "Must include " +:+ String "034" "email" +:+ String "034" " and "
  +:+ String "034" "password" +:+ String "034" ".".

Module LoginSerializer.
Section Login.
Context `{Accounts}.

(** [validate(attrs)]; the pair stands for [attrs] with [attrs['user']]. *)
Definition validate (attrs : gmap string string) (d : Database)
    : result (checked (gmap string string * User.t)) :=
  let email := attrs !! "email" in
  let password := attrs !! "password" in
  match email, password with
  | Some email, Some password =>
      if truthy_str (Some email) && truthy_str (Some password) then
        match first_by_email d email with
        | None =>
            Ok (ValidationError "Unable to log in with provided credentials.")
        | Some user =>
            if negb (check_password password (User.password user))
            then Ok (ValidationError "Unable to log in with provided credentials.")
            else if negb (User.is_active user)
            then Ok (ValidationError "User account is disabled.")
            else if negb (String.eqb (role_value (User.role user)) "admin")
            then
              match fk_tenant d user with
              | Raise e => Raise e
              | Ok None =>
                  Ok (ValidationError "Your organization account is inactive.")
              | Ok (Some tenant) =>
                  if negb (Tenant.is_active tenant)
                  then Ok (ValidationError "Your organization account is inactive.")
                  else Ok (Accepted (attrs, user))
              end
            else Ok (Accepted (attrs, user))
        end
      else Ok (ValidationError must_include_message)
  | _, _ => Ok (ValidationError must_include_message)
  end.
End Login.
End LoginSerializer.

Module UserCreateSerializer.
Section Create.
Context `{Accounts}.

(** [validate_role(value)] *)
Definition validate_role (value : string) : checked string :=
  if bool_decide (value ∈ [role_value TENANT_ADMIN; role_value TENANT_USER])
  then Accepted value
  else ValidationError "Invalid role specified.".

(** [create(validated_data)]; [pop('password')] raises [KeyError] on a
    dictionary without the key. *)
Definition create (me : thread) (validated_data : gmap string string)
    : M State (checked User.t) :=
  tenant <- get_current_tenant me ;;
  match tenant with
  | None => ret (ValidationError "Cannot create user without tenant context.")
  | Some tenant =>
      match validated_data !! "password" with
      | None => raise (OtherError "KeyError")
      | Some password =>
          user <- create_user tenant password (delete "password" validated_data) ;;
          ret (Accepted user)
      end
  end.
End Create.
End UserCreateSerializer.

(** ** tenants/serializer.py *)

Module TenantSerializer.
(** [obj.users.filter(is_active=True).count()] *)
Definition get_user_count (obj : Tenant.t) (d : Database) : nat :=
  size (filter (fun kv : Z * User.t =>
                  User.tenant_id kv.2 = Some (Tenant.pk obj)
                  /\ User.is_active kv.2 = true)
          (users d)).
End TenantSerializer.

(** ** patients/models.py and patients/views.py *)

(** A calendar date, as [datetime.date] exposes it. *)
Record date : Type := mkDate { year : Z; month : Z; day : Z }.

(** [(a1, a2) < (b1, b2)] on pairs of integers. *)
Definition pair_lt (a1 a2 b1 b2 : Z) : bool :=
  (a1 <? b1) || ((a1 =? b1) && (a2 <? b2)).

Module Patient.
(** A row of table [patients]; [tenant_id] is the foreign key of
    [TenantAwareModel], which is not nullable. *)
Record t : Type := mk {
  pk : Z;
  tenant_id : Z;
  created_at : Z;
  updated_at : Z;
  patient_id : string;
  first_name : string;
  last_name : string;
  date_of_birth : date;
  gender : string;
  email : option string;
  phone_number : string;
  address_line1 : string;
  address_line2 : option string;
  city : string;
  state : string;
  country : string;
  postal_code : string;
  blood_group : option string;
  medical_history : option string;
  allergies : option string;
  current_medications : option string;
  emergency_contact_name : option string;
  emergency_contact_phone : option string;
  emergency_contact_relationship : option string;
  is_active : bool;
  notes : option string
}.

(** The property [age]; [today] is what [date.today()] returns. A boolean
    subtracts as 0 or 1. *)
Definition age (today : date) (self : t) : Z :=
  year today - year (date_of_birth self)
  - (if pair_lt (month today) (day today)
          (month (date_of_birth self)) (day (date_of_birth self))
     then 1 else 0).

(** The property [full_name]. *)
Definition full_name (self : t) : string :=
  first_name self +:+ " " +:+ last_name self.
End Patient.

Module TenantFilteredViewSet.
(** [get_queryset] over the patients:
    [queryset.filter(tenant=self.request.user.tenant)]. Reading [tenant]
    off [None] or the anonymous user raises [AttributeError]; a filter on
    [tenant=None] asks for rows without a tenant, and there are none. *)
Definition get_queryset (user : request_user) (queryset : gmap Z Patient.t)
    : result (gmap Z Patient.t) :=
  match user with
  | NoUser => Raise AttributeError
  | AnonymousUser => Raise AttributeError
  | Identity u =>
      match AuthenticatedUser.tenant u with
      | None => Ok ∅
      | Some tenant =>
          Ok (filter (fun kv : Z * Patient.t =>
                        Patient.tenant_id kv.2 = Tenant.pk tenant) queryset)
      end
  end.
End TenantFilteredViewSet.

(** ** Vocabulary of the specification *)

(** The authorization header the strategy works with: [Authorization] from
    the headers and, when that is missing or empty, [HTTP_AUTHORIZATION]
    from [META]. *)
Definition authorization_of (r : Request) : option string :=
  if truthy_str (headers r !! "Authorization") then headers r !! "Authorization"
  else META r !! "HTTP_AUTHORIZATION".

(** Missing, empty, or without the prefix ['Bearer ']. *)
Definition malformed_authorization (h : option string) : Prop :=
  h = None \/ h = Some "" \/ exists v, h = Some v /\ startswith v "Bearer " = false.

(** The request of state [s] presents [token] as its bearer token. *)
Definition presents (s : State) (token : string) : Prop :=
  exists h, authorization_of (request s) = Some h
            /\ startswith h "Bearer " = true
            /\ split " "%char h !! 1%nat = Some token.




(** The context of thread [t] is empty or holds [T]. *)
Definition own_context (t : nat) (T : Tenant.t) (s : State) : Prop :=
  thread_locals s !! t = None \/ thread_locals s !! t = Some (Some T).

(** Steps of thread [t] belong to request [r]; other threads may do
    anything. *)
Definition fair (t : nat) (r : Request) (ev : nat * action) : Prop :=
  ev.1 = t -> serves r ev.2.

(** The state with another database. *)
Definition with_db (d : Database) (s : State) : State :=
  mkState (request s) (thread_locals s) d (log s).

(** The database with every user's [is_active] rewritten by [flag]. *)
Definition reflag_users (flag : User.t -> bool) (d : Database) : Database :=
  mkDatabase (tenants d)
    ((fun u : User.t => User.set_is_active (flag u) u) <$> users d).

(** The string contains a space. *)
Fixpoint has_space (s : string) : bool :=
  match s with
  | EmptyString => false
  | String c rest => Ascii.eqb c " "%char || has_space rest
  end.

(** Projections of the ghost record. *)
Definition publications (l : list effect) : list (nat * option Tenant.t) :=
  omap (fun e => match e with SetTenant t v => Some (t, v) | _ => None end) l.
Definition downstream_calls (l : list effect) : list nat :=
  omap (fun e => match e with CallDownstream t => Some t | _ => None end) l.
Definition validator_calls (l : list effect) : list string :=
  omap (fun e => match e with CallValidator tok => Some tok | _ => None end) l.

(** ** Sample data *)

(** A small database for the examples: tenant 1 with users 10 and 11,
    tenant 2 with user 20. *)
Definition sample_tenant (k : Z) (nm : string) (active : bool) : Tenant.t :=
  Tenant.mk k nm nm active None None None None None None None None "{}" 0 0.

Definition sample_user (k : Z) (tn : option Z) (mail : string) (active : bool) : User.t :=
  User.mk k tn mail "" "" "" None "" None "" "" "" "" TENANT_USER active
    false false None None 0 0.

Definition sample_db : Database :=
  mkDatabase
    (<[1 := sample_tenant 1 "alpha" true]>
       (<[2 := sample_tenant 2 "beta" true]> ∅))
    (<[10 := sample_user 10 (Some 1) "a@alpha" true]>
       (<[11 := sample_user 11 (Some 1) "b@alpha" true]>
          (<[20 := sample_user 20 (Some 2) "c@beta" true]> ∅))).

(** A token library for the examples: ["expired"] and ["garbage"] are
    rejected, ["nosub"] parses but has no subject, ["tokN"] is a good token
    of user N. *)
Definition sample_UntypedToken (token : string) : result Token :=
  if String.eqb token "expired" then Raise ExpiredSignatureError
  else if String.eqb token "garbage" then Raise TokenError
  else if String.eqb token "nosub" then Ok (mkToken None (Some "tenant_user"))
  else if String.eqb token "tok10" then Ok (mkToken (Some 10) (Some "tenant_user"))
  else if String.eqb token "tok20" then Ok (mkToken (Some 20) (Some "tenant_user"))
  else if String.eqb token "tok42" then Ok (mkToken (Some 42) (Some "tenant_user"))
  else Raise InvalidToken.

Definition sample_collaborators : Collaborators :=
  {| PUBLIC_URL := ["/api/v1/auth/login/"; "/health/"];
     UntypedToken := sample_UntypedToken;
     token_bool := fun _ => true |}.

Definition sample_request (p : string) (authorization : option string) : Request :=
  mkRequest p
    (match authorization with
     | Some h => {["Authorization" := h]}
     | None => ∅
     end)
    ∅ None None None.

Definition sample_state (r : Request) (d : Database) : State :=
  mkState r ∅ d [].

(** The database after tenant 1 has been deactivated. *)
Definition sample_db_off : Database :=
  TenantModel.database
    (fst (TenantModel.deactivate
            (TenantModel.mkStore (sample_tenant 1 "alpha" true) sample_db))).

(** A request for a protected path without credentials, and one with a good
    token of user 42, who has no row. *)
Definition no_credentials_state : State :=
  sample_state (sample_request "/api/v1/patients/" None) sample_db.

Definition deleted_user_state : State :=
  sample_state (sample_request "/api/v1/patients/" (Some "Bearer tok42")) sample_db.

(** A request of user 10 after the tenant of that user was deactivated. *)
Definition inactive_tenant_state : State :=
  sample_state (sample_request "/api/v1/patients/" (Some "Bearer tok10")) sample_db_off.

(** Two requests served at the same time: user 10 of tenant 1 on thread 1,
    user 20 of tenant 2 on thread 2, interleaved. *)
Definition request_alpha : Request :=
  sample_request "/api/v1/patients/" (Some "Bearer tok10").
Definition request_beta : Request :=
  sample_request "/api/v1/patients/" (Some "Bearer tok20").

Definition ok_response : JsonResponse := mkJsonResponse [] 200.

Definition sample_schedule : list (nat * action) :=
  [ (1%nat, ProcessRequest request_alpha);
    (2%nat, ProcessRequest request_beta);
    (1%nat, GetCurrentTenant);
    (2%nat, GetCurrentTenant);
    (1%nat, ProcessResponse ok_response);
    (2%nat, GetCurrentTenant);
    (1%nat, GetCurrentTenant);
    (2%nat, ProcessException (OtherError "ValueError"));
    (2%nat, GetCurrentTenant) ].

(** User 42 exists here, is an administrator and has no tenant. *)
Definition sample_db_admin : Database :=
  mkDatabase (tenants sample_db)
    (<[42 := User.mk 42 None "root@lab" "" "" "" None "" None "" "" "" "" ADMIN
               true true true None None 0 0]> (users sample_db)).

Definition admin_request_state : State :=
  sample_state (sample_request "/api/v1/patients/" (Some "Bearer tok42"))
    sample_db_admin.

(** Accounts for the examples: the stored password is the raw one, and
    [create_user] stores a row under key 100. *)
Definition sample_login_user (k : Z) (tn : option Z) (mail : string)
    (r : UserRole) : User.t :=
  User.mk k tn mail "secret" "" "" None "" None "" "" "" "" r true
    false false None None 0 0.

Definition sample_accounts : Accounts :=
  {| check_password := fun raw stored => String.eqb raw stored;
     create_user := fun tenant password fields =>
       let u := sample_login_user 100 (Some (Tenant.pk tenant))
                  (default "" (fields !! "email")) TENANT_USER in
       (modify (fun s =>
          with_db (mkDatabase (tenants (db s)) (<[100 := u]> (users (db s)))) s)
        ;; ret u)%py |}.

(** Users with a password: 30 in tenant 1, 31 in tenant 2, and the
    administrator 42 without a tenant. *)
Definition login_db : Database :=
  mkDatabase (tenants sample_db)
    (<[30 := sample_login_user 30 (Some 1) "d@alpha" TENANT_USER]>
       (<[31 := sample_login_user 31 (Some 2) "e@beta" TENANT_USER]>
          (<[42 := sample_login_user 42 None "root@lab" ADMIN]>
             (users sample_db)))).

Definition login_attrs (mail password : string) : gmap string string :=
  <["email" := mail]> (<["password" := password]> ∅).

(** The order of the calendar on dates. *)
Definition date_le (a b : date) : Prop :=
  year a < year b
  \/ (year a = year b
      /\ (month a < month b \/ (month a = month b /\ day a <= day b))).

(** Patients for the examples: 1 and 2 in tenant 1, 3 in tenant 2. *)
Definition sample_patient (k tn : Z) (born : date) : Patient.t :=
  Patient.mk k tn 0 0 "P" "Ada" "Lovelace" born "female" None "" "" None
    "" "" "" "" None None None None None None None true None.

Definition sample_patients : gmap Z Patient.t :=
  <[1 := sample_patient 1 1 (mkDate 1990 6 15)]>
    (<[2 := sample_patient 2 1 (mkDate 2000 2 29)]>
       (<[3 := sample_patient 3 2 (mkDate 1985 12 1)]> ∅)).




(** * Properties *)

(** ** The context cell *)

Section ContextFacts.
Implicit Types (me t : nat) (s : State).

Lemma with_thread_locals_id s : with_thread_locals (thread_locals s) s = s.
Proof. by destruct s. Qed.

(** Clearing computes to dropping the running thread's attribute. *)
Lemma clear_current_tenant_spec me s :
  clear_current_tenant me s
  = (with_thread_locals (delete me (thread_locals s)) s, Ok tt).
Proof.
  unfold clear_current_tenant, bind, hasattr_tenant, gets, delattr_tenant, ret.
  destruct (thread_locals s !! me) as [v|] eqn:Hslot; simpl.
  - by rewrite Hslot.
  - by rewrite delete_id, with_thread_locals_id.
Qed.

Lemma clear_current_tenant_absent me s :
  thread_locals s !! me = None -> clear_current_tenant me s = (s, Ok tt).
Proof.
  intros Hnone. rewrite clear_current_tenant_spec.
  by rewrite delete_id, with_thread_locals_id.
Qed.

Lemma get_current_tenant_absent me s :
  thread_locals s !! me = None -> get_current_tenant me s = (s, Ok None).
Proof. intros Hnone. unfold get_current_tenant, gets. by rewrite Hnone. Qed.
End ContextFacts.

(** C8. [clear_current_tenant] is idempotent: from any state the first call
    returns normally and leaves the running thread without a tenant; a
    second call right after returns normally too and changes nothing, so
    clearing an empty context is a no-op and never a fault. *)
Theorem clear_current_tenant_idempotent (me : nat) (s : State) :
  exists s1,
    clear_current_tenant me s = (s1, Ok tt)
    /\ clear_current_tenant me s1 = (s1, Ok tt)
    /\ thread_locals s1 !! me = None
    /\ get_current_tenant me s1 = (s1, Ok None)
    /\ (thread_locals s !! me = None -> s1 = s).
Proof.
  exists (with_thread_locals (delete me (thread_locals s)) s).
  assert (Hgone : thread_locals
            (with_thread_locals (delete me (thread_locals s)) s) !! me = None)
    by apply lookup_delete_eq.
  split_and!.
  - apply clear_current_tenant_spec.
  - by apply clear_current_tenant_absent.
  - exact Hgone.
  - by apply get_current_tenant_absent.
  - intros Hnone. by rewrite delete_id, with_thread_locals_id.
Qed.

(** ** Tenant activation state *)

Section TenantFacts.
Import TenantModel.
Implicit Types (t row : Tenant.t) (d : Database).

Lemma deactivate_run t d row :
  tenants d !! Tenant.pk t = Some row ->
  deactivate (mkStore t d)
  = (mkStore (Tenant.set_is_active false t)
       (mkDatabase
          (<[Tenant.pk t := Tenant.set_is_active false row]> (tenants d))
          ((fun u : User.t =>
              if decide (User.tenant_id u = Some (Tenant.pk t))
              then User.set_is_active false u else u) <$> users d)),
     Ok tt).
Proof.
  intros Hrow.
  unfold deactivate, bind, assign_is_active, save_is_active,
    users_update_is_active, modify; simpl.
  by rewrite Hrow.
Qed.

Lemma activate_run t d row :
  tenants d !! Tenant.pk t = Some row ->
  activate (mkStore t d)
  = (mkStore (Tenant.set_is_active true t)
       (mkDatabase
          (<[Tenant.pk t := Tenant.set_is_active true row]> (tenants d))
          (users d)),
     Ok tt).
Proof.
  intros Hrow.
  unfold activate, bind, assign_is_active, save_is_active, modify; simpl.
  by rewrite Hrow.
Qed.

(** Whatever [activate] does, the users table is the one it found. *)
Lemma activate_users st : users (database (fst (activate st))) = users (database st).
Proof.
  unfold activate, bind, assign_is_active, save_is_active, modify; simpl.
  by destruct (tenants (database st) !! Tenant.pk (self st)).
Qed.
End TenantFacts.

(** C9. [Tenant.deactivate] on a stored tenant returns normally, leaves the
    instance and its row inactive, and in the same call makes every user
    whose tenant is this one inactive; users of other tenants keep their
    row. *)
Theorem deactivate_cascades (t : Tenant.t) (d : Database) (row : Tenant.t) :
  tenants d !! Tenant.pk t = Some row ->
  exists t' d',
    TenantModel.deactivate (TenantModel.mkStore t d) = (TenantModel.mkStore t' d', Ok tt)
    /\ Tenant.is_active t' = false
    /\ tenants d' !! Tenant.pk t = Some (Tenant.set_is_active false row)
    /\ (forall uid u, users d !! uid = Some u ->
          User.tenant_id u = Some (Tenant.pk t) ->
          users d' !! uid = Some (User.set_is_active false u))
    /\ (forall uid u', users d' !! uid = Some u' ->
          User.tenant_id u' = Some (Tenant.pk t) ->
          User.is_active u' = false)
    /\ (forall uid u, users d !! uid = Some u ->
          User.tenant_id u <> Some (Tenant.pk t) ->
          users d' !! uid = Some u).
Proof.
  intros Hrow. eexists _, _. split; [by apply deactivate_run with (row := row)|].
  simpl. split_and!.
  - done.
  - apply lookup_insert_eq.
  - intros uid u Hu Hfk. rewrite lookup_fmap, Hu. simpl.
    by rewrite decide_True.
  - intros uid u' Hu' Hfk. rewrite lookup_fmap in Hu'.
    destruct (users d !! uid) as [u|]; simpl in Hu'; [|done].
    injection Hu' as <-. by case_decide.
  - intros uid u Hu Hfk. rewrite lookup_fmap, Hu. simpl.
    by rewrite decide_False.
Qed.

Lemma deactivate_cascades_witness :
  exists t' d',
    TenantModel.deactivate
      (TenantModel.mkStore (sample_tenant 1 "alpha" true) sample_db)
    = (TenantModel.mkStore t' d', Ok tt)
    /\ Tenant.is_active t' = false
    /\ tenants d' !! 1 = Some (Tenant.set_is_active false (sample_tenant 1 "alpha" true))
    /\ (forall uid u, users sample_db !! uid = Some u ->
          User.tenant_id u = Some 1 ->
          users d' !! uid = Some (User.set_is_active false u))
    /\ (forall uid u', users d' !! uid = Some u' ->
          User.tenant_id u' = Some 1 ->
          User.is_active u' = false)
    /\ (forall uid u, users sample_db !! uid = Some u ->
          User.tenant_id u <> Some 1 ->
          users d' !! uid = Some u).
Proof.
  apply (deactivate_cascades (sample_tenant 1 "alpha" true) sample_db
           (sample_tenant 1 "alpha" true)).
  reflexivity.
Defined.

(** C10. [Tenant.activate] on a stored tenant sets the flag of the instance
    and of its own row and nothing else: every other tenant row and the
    whole users table are as before. Run after [Tenant.deactivate], it
    leaves the users that the cascade switched off inactive. *)
Theorem activate_keeps_users (t : Tenant.t) (d : Database) (row : Tenant.t) :
  tenants d !! Tenant.pk t = Some row ->
  (exists t' d',
     TenantModel.activate (TenantModel.mkStore t d) = (TenantModel.mkStore t' d', Ok tt)
     /\ t' = Tenant.set_is_active true t
     /\ tenants d' !! Tenant.pk t = Some (Tenant.set_is_active true row)
     /\ (forall k, k <> Tenant.pk t -> tenants d' !! k = tenants d !! k)
     /\ users d' = users d)
  /\ (exists st1 st2,
        TenantModel.deactivate (TenantModel.mkStore t d) = (st1, Ok tt)
        /\ TenantModel.activate st1 = (st2, Ok tt)
        /\ Tenant.is_active (TenantModel.self st2) = true
        /\ Tenant.is_active <$> tenants (TenantModel.database st2) !! Tenant.pk t
           = Some true
        /\ users (TenantModel.database st2) = users (TenantModel.database st1)
        /\ (forall uid u, users (TenantModel.database st2) !! uid = Some u ->
              User.tenant_id u = Some (Tenant.pk t) ->
              User.is_active u = false)).
Proof.
  intros Hrow. split.
  - eexists _, _. split; [by apply activate_run with (row := row)|].
    simpl. split_and!; [done| |intros k Hk|done].
    + apply lookup_insert_eq.
    + by apply lookup_insert_ne.
  - pose proof (deactivate_run t d row Hrow) as Hrun.
    eexists _, _. split; [exact Hrun|].
    split.
    { apply activate_run with (row := Tenant.set_is_active false row).
      simpl. apply lookup_insert_eq. }
    simpl. split_and!; [done| |done|].
    + by rewrite lookup_insert_eq.
    + intros uid u' Hu' Hfk. rewrite lookup_fmap in Hu'.
      destruct (users d !! uid) as [u|]; simpl in Hu'; [|done].
      injection Hu' as <-. by case_decide.
Qed.

Lemma activate_keeps_users_witness :
  exists st1 st2,
    TenantModel.deactivate
      (TenantModel.mkStore (sample_tenant 1 "alpha" true) sample_db) = (st1, Ok tt)
    /\ TenantModel.activate st1 = (st2, Ok tt)
    /\ Tenant.is_active (TenantModel.self st2) = true
    /\ Tenant.is_active <$> tenants (TenantModel.database st2) !! 1 = Some true
    /\ users (TenantModel.database st2) = users (TenantModel.database st1)
    /\ (forall uid u, users (TenantModel.database st2) !! uid = Some u ->
          User.tenant_id u = Some 1 ->
          User.is_active u = false).
Proof.
  apply (activate_keeps_users (sample_tenant 1 "alpha" true) sample_db
           (sample_tenant 1 "alpha" true)).
  reflexivity.
Defined.

(** ** The authenticator *)

(** Unfolds the monadic plumbing of the authenticator. *)
Ltac unfold_auth :=
  unfold AuthenticationService.authenticate, JwtAuthenticationStrategy.authenticate,
    JwtAuthenticationStrategy.second_piece,
    JwtAuthenticationStrategy.token_validation,
    JwtAuthenticationStrategy.attach_claims,
    JwtAuthenticationStrategy.get_user, new_AuthenticatedUser, user_tenant,
    try_except, bind, gets, modify, raise, ret in *.

(** Splits on every test the unfolded authenticator makes. *)
Ltac auth_cases :=
  repeat (simpl in *;
          match goal with
          | |- context [match ?x with _ => _ end] =>
              lazymatch x with
              | context [match _ with _ => _ end] => fail
              | _ => destruct x eqn:?
              end
          end);
  simpl in *.

Section AuthenticatorFacts.
Context `{Collaborators}.
Implicit Types (s : State) (l : gmap nat (option Tenant.t)).

Lemma strategy_with_thread_locals l s :
  JwtAuthenticationStrategy.authenticate (with_thread_locals l s)
  = (with_thread_locals l (fst (JwtAuthenticationStrategy.authenticate s)),
     snd (JwtAuthenticationStrategy.authenticate s)).
Proof. destruct s as [r tl d lg]. unfold_auth. auth_cases; reflexivity. Qed.

Lemma service_with_thread_locals l s :
  AuthenticationService.authenticate (with_thread_locals l s)
  = (with_thread_locals l (fst (AuthenticationService.authenticate s)),
     snd (AuthenticationService.authenticate s)).
Proof. destruct s as [r tl d lg]. unfold_auth. auth_cases; reflexivity. Qed.

(** The authenticator leaves the tenant context and the database alone. *)
Lemma service_thread_locals s :
  thread_locals (fst (AuthenticationService.authenticate s)) = thread_locals s.
Proof. destruct s as [r tl d lg]. unfold_auth. auth_cases; reflexivity. Qed.

Lemma service_db s : db (fst (AuthenticationService.authenticate s)) = db s.
Proof. destruct s as [r tl d lg]. unfold_auth. auth_cases; reflexivity. Qed.

Lemma publications_snoc_validator lg token :
  publications (lg ++ [CallValidator token]) = publications lg.
Proof. unfold publications. rewrite omap_app. simpl. apply app_nil_r. Qed.

Lemma downstream_calls_snoc_validator lg token :
  downstream_calls (lg ++ [CallValidator token]) = downstream_calls lg.
Proof. unfold downstream_calls. rewrite omap_app. simpl. apply app_nil_r. Qed.

(** It publishes no tenant and calls no downstream handler. *)
Lemma service_publications s :
  publications (log (fst (AuthenticationService.authenticate s)))
  = publications (log s).
Proof.
  destruct s as [r tl d lg]. unfold_auth.
  auth_cases; auto using publications_snoc_validator.
Qed.

Lemma service_downstream_calls s :
  downstream_calls (log (fst (AuthenticationService.authenticate s)))
  = downstream_calls (log s).
Proof.
  destruct s as [r tl d lg]. unfold_auth.
  auth_cases; auto using downstream_calls_snoc_validator.
Qed.

(** Its answer is a function of the request and the database. *)
Lemma service_answer_ext s1 s2 :
  request s1 = request s2 -> db s1 = db s2 ->
  snd (AuthenticationService.authenticate s1)
  = snd (AuthenticationService.authenticate s2).
Proof.
  destruct s1 as [r1 tl1 d1 lg1], s2 as [r2 tl2 d2 lg2]. simpl.
  intros -> ->. unfold_auth. auth_cases; reflexivity.
Qed.

(** When the service returns a pair, its first component is a user:
    the strategy never answers [(None, token)]. *)
Lemma service_answer_user s s' user token :
  AuthenticationService.authenticate s = (s', Ok (Some (user, token))) ->
  is_Some user.
Proof.
  destruct s as [r tl d lg]. unfold_auth.
  auth_cases; intros [= <- <- <-] || intros [=]; eauto.
Qed.

(** The first step of the strategy, on the header it works with. *)
Lemma strategy_without_bearer s :
  malformed_authorization (authorization_of (request s)) ->
  JwtAuthenticationStrategy.authenticate s
  = (s, Raise (CustomAuthenticationFailed
                 "Authorization Details is missing or invalid")).
Proof.
  intros Hbad.
  unfold JwtAuthenticationStrategy.authenticate, bind, gets. simpl.
  fold (authorization_of (request s)).
  destruct Hbad as [-> | [-> | (v & -> & Hv)]]; [done..|].
  unfold raise. rewrite Hv. simpl. by rewrite orb_true_r.
Qed.
End AuthenticatorFacts.

(** C6. When the authorization header the strategy works with (the
    [Authorization] header or, failing that, the fallback from [META]) is
    missing, empty or does not start with ['Bearer '], the authenticator
    raises [CustomAuthenticationFailed] and leaves the state as it found
    it: the token validator has not been entered. The service in front of
    the strategy passes the failure on for every path that is not public. *)
Theorem malformed_authorization_rejected `{Collaborators} (s : State) :
  malformed_authorization (authorization_of (request s)) ->
  JwtAuthenticationStrategy.authenticate s
  = (s, Raise (CustomAuthenticationFailed
                 "Authorization Details is missing or invalid"))
  /\ validator_calls (log (fst (JwtAuthenticationStrategy.authenticate s)))
     = validator_calls (log s)
  /\ (any_startswith (path (request s)) PUBLIC_URL = false ->
      AuthenticationService.authenticate s
      = (s, Raise (CustomAuthenticationFailed
                     "Authorization Details is missing or invalid"))).
Proof.
  intros Hbad. pose proof (strategy_without_bearer s Hbad) as Hrun.
  split_and!.
  - exact Hrun.
  - by rewrite Hrun.
  - intros Hprivate.
    unfold AuthenticationService.authenticate, bind, gets, try_except. simpl.
    rewrite Hprivate. unfold bind. by rewrite Hrun.
Qed.

Lemma malformed_authorization_rejected_witness :
  @JwtAuthenticationStrategy.authenticate sample_collaborators
    (sample_state (sample_request "/api/v1/patients/" (Some "Token abc")) sample_db)
  = (sample_state (sample_request "/api/v1/patients/" (Some "Token abc")) sample_db,
     Raise (CustomAuthenticationFailed
              "Authorization Details is missing or invalid")).
Proof.
  apply (@malformed_authorization_rejected sample_collaborators
           (sample_state
              (sample_request "/api/v1/patients/" (Some "Token abc")) sample_db)).
  right. right. exists "Token abc". split; reflexivity.
Defined.

Section TokenFailures.
Context `{Collaborators}.

Lemma split_nonempty sep str : exists piece pieces, split sep str = piece :: pieces.
Proof.
  induction str as [|c rest (piece & pieces & IH)]; simpl; [eauto|].
  destruct (Ascii.eqb c sep); [eauto|]. rewrite IH. eauto.
Qed.

(** A header with the prefix always has a second piece, so the indexing
    [split(' ')[1]] cannot fail. *)
Lemma bearer_has_token h :
  startswith h "Bearer " = true -> is_Some (split " "%char h !! 1%nat).
Proof.
  unfold startswith. intros Hpre.
  do 7 (destruct h as [|? h]; cbn [String.prefix] in Hpre; [done|];
        destruct (ascii_dec _ _) as [<-|]; [|done]).
  destruct (split_nonempty " "%char h) as (piece & pieces & Hsplit).
  simpl. rewrite Hsplit. simpl. eauto.
Qed.

End TokenFailures.



(** C3 (the code departs from the claim). A good token whose [user_id] has
    no row: [get_user] stands after the [try] block that would answer
    "User not found", so the [DoesNotExist] of the lookup leaves the
    strategy, the service and [process_request] as it is. *)
Theorem deleted_user_lookup_escapes :
  users sample_db !! 42 = None
  /\ snd (@JwtAuthenticationStrategy.authenticate sample_collaborators
            deleted_user_state)
     = Raise DoesNotExist
  /\ snd (@AuthenticationService.authenticate sample_collaborators
            deleted_user_state)
     = Raise DoesNotExist
  /\ snd (@TenantMiddleware.process_request sample_collaborators 0%nat
            deleted_user_state)
     = Raise DoesNotExist.
Proof. vm_compute. split_and!; reflexivity. Qed.

(** The same for every good token whose subject has no row. *)
Lemma missing_user_raises_DoesNotExist `{Collaborators}
    (s : State) (token : string) (p : Token) (user_id : Z) :
  presents s token ->
  UntypedToken token = Ok p -> token_bool p = true ->
  claim_user_id p = Some user_id ->
  users (db s) !! user_id = None ->
  snd (JwtAuthenticationStrategy.authenticate s) = Raise DoesNotExist.
Proof.
  intros (h & Hh & Hpre & Htok) Hparse Htruthy Hsub Hgone.
  destruct h as [|c h']; [by vm_compute in Hpre|].
  unfold JwtAuthenticationStrategy.authenticate, bind, gets. simpl.
  fold (authorization_of (request s)). rewrite Hh, Hpre. simpl.
  unfold JwtAuthenticationStrategy.second_piece. rewrite Htok.
  unfold ret, JwtAuthenticationStrategy.token_validation, bind, modify,
    try_except, raise.
  rewrite Hparse, Htruthy. simpl. rewrite Hsub.
  unfold JwtAuthenticationStrategy.attach_claims,
    JwtAuthenticationStrategy.get_user, modify, bind, gets. simpl.
  by rewrite Hgone.
Qed.

(** ** The middleware *)

Section MiddlewareFacts.
Context `{Collaborators}.
Import TenantMiddleware.
Implicit Types (me t : nat) (s : State).

Lemma with_request_id s : with_request (request s) s = s.
Proof. by destruct s. Qed.

(** [process_request], with the entry clear and the authenticator's run
    made explicit. *)
Lemma process_request_run me s :
  process_request me s
  = let cleared := with_thread_locals (delete me (thread_locals s)) in
    if any_startswith (path (request s)) EXCLUDED_PATHS
    then (cleared s, Ok None)
    else
      let s1 := cleared (fst (AuthenticationService.authenticate s)) in
      match snd (AuthenticationService.authenticate s) with
      | Raise e => (s1, Raise e)
      | Ok None => (s1, Raise TypeError)
      | Ok (Some (None, _)) => (s1, Ok (Some credential_missing))
      | Ok (Some (Some user, _)) =>
          match AuthenticatedUser.tenant user with
          | None => (s1, Ok (Some no_tenant))
          | Some tenant =>
              if negb (Tenant.is_active tenant)
              then (s1, Ok (Some tenant_inactive))
              else
                match (set_current_tenant me (Some tenant) ;;
                       attach_tenant tenant)%py s1 with
                | (s2, _) => (s2, Ok None)
                end
          end
      end.
Proof.
  unfold process_request. unfold bind at 1.
  rewrite clear_current_tenant_spec. unfold bind at 1. simpl.
  destruct (any_startswith _ _); [done|].
  unfold bind at 1. rewrite service_with_thread_locals.
  destruct (snd (AuthenticationService.authenticate s))
    as [[[[user|] token]|]|e]; try done.
  destruct (AuthenticatedUser.tenant user) as [tenant|]; [|done].
  by destruct (Tenant.is_active tenant).
Qed.

Lemma process_response_run me response s :
  process_response me response s
  = (with_thread_locals (delete me (thread_locals s)) s, Ok response).
Proof.
  unfold process_response, bind. by rewrite clear_current_tenant_spec.
Qed.

Lemma process_exception_run me exception s :
  process_exception me exception s
  = (with_thread_locals (delete me (thread_locals s)) s, Ok None).
Proof.
  unfold process_exception, bind. by rewrite clear_current_tenant_spec.
Qed.

(** The branch that answers "Credential Missing" is never taken. *)
Lemma credential_missing_unreachable me s :
  snd (process_request me s) <> Ok (Some credential_missing).
Proof.
  rewrite process_request_run. simpl.
  destruct (any_startswith (path (request s)) EXCLUDED_PATHS); [done|].
  destruct (AuthenticationService.authenticate s) as [s1 answer] eqn:Hrun.
  simpl. destruct answer as [[[[user|] token]|]|e]; try done.
  - destruct (AuthenticatedUser.tenant user) as [tenant|]; [|done].
    by destruct (Tenant.is_active tenant).
  - by destruct (service_answer_user _ _ _ _ Hrun).
Qed.
End MiddlewareFacts.

(** C4 (the code departs from the claim). A request for a protected path
    without credentials: the authenticator raises, nothing in
    [process_request] catches it, and the exception leaves the middleware;
    the downstream handler is not called, but no 403 response
    "Credential Missing" is produced. *)
Theorem authentication_failure_escapes :
  any_startswith (path (request no_credentials_state))
    (@TenantMiddleware.EXCLUDED_PATHS) = false
  /\ @TenantMiddleware.process_request sample_collaborators 0%nat
       no_credentials_state
     = (no_credentials_state,
        Raise (CustomAuthenticationFailed
                 "Authorization Details is missing or invalid"))
  /\ (forall get_response on_error,
        @TenantMiddleware.call sample_collaborators 0%nat get_response on_error
          no_credentials_state
        = (no_credentials_state,
           Raise (CustomAuthenticationFailed
                    "Authorization Details is missing or invalid"))).
Proof.
  split; [reflexivity|].
  assert (@TenantMiddleware.process_request sample_collaborators 0%nat
            no_credentials_state
          = (no_credentials_state,
             Raise (CustomAuthenticationFailed
                      "Authorization Details is missing or invalid"))) as Hrun
    by (vm_compute; reflexivity).
  split; [exact Hrun|].
  intros get_response on_error. unfold TenantMiddleware.call, bind.
  by rewrite Hrun.
Qed.

Section RequestEffects.
Context `{Collaborators}.
Import TenantMiddleware.
Implicit Types (me t : nat) (s : State).

(** What [process_request] leaves behind: the database as it was, the
    other threads' context as it was, and the running thread's context
    either empty or, when the request is let through, holding the tenant
    the request is bound to. *)
Lemma process_request_effect me s :
  db (fst (process_request me s)) = db s
  /\ (forall t, t <> me ->
        thread_locals (fst (process_request me s)) !! t = thread_locals s !! t)
  /\ (thread_locals (fst (process_request me s)) !! me = None
      \/ (snd (process_request me s) = Ok None
          /\ exists tenant,
               thread_locals (fst (process_request me s)) !! me
               = Some (Some tenant)
               /\ bound_tenant (request s) s = Some tenant)).
Proof.
  rewrite process_request_run. simpl.
  destruct (any_startswith (path (request s)) EXCLUDED_PATHS).
  { simpl. split_and!; [done| |left; apply lookup_delete_eq].
    intros t Ht. by apply lookup_delete_ne. }
  pose proof (service_db s) as Hdb.
  unfold bound_tenant. rewrite with_request_id.
  destruct (AuthenticationService.authenticate s) as [s1 answer].
  simpl in *.
  assert (Hquiet : forall e : result (option JsonResponse),
    db (with_thread_locals (delete me (thread_locals s)) s1, e).1 = db s
    /\ (forall t, t <> me ->
          thread_locals
            (with_thread_locals (delete me (thread_locals s)) s1, e).1 !! t
          = thread_locals s !! t)
    /\ (thread_locals
          (with_thread_locals (delete me (thread_locals s)) s1, e).1 !! me = None
        \/ (with_thread_locals (delete me (thread_locals s)) s1, e).2 = Ok None
           /\ exists tenant,
                thread_locals
                  (with_thread_locals (delete me (thread_locals s)) s1, e).1 !! me
                = Some (Some tenant)
                /\ match answer with
                   | Ok (Some (Some user, _)) => AuthenticatedUser.tenant user
                   | _ => None
                   end = Some tenant)).
  { intros e. simpl. split_and!; [done| |left; apply lookup_delete_eq].
    intros t Ht. by apply lookup_delete_ne. }
  destruct answer as [[[[user|] token]|]|e]; try apply Hquiet.
  destruct (AuthenticatedUser.tenant user) as [tenant|]; [|apply Hquiet].
  destruct (Tenant.is_active tenant); [|apply Hquiet].
  simpl. split_and!; [done| |right].
  - intros t Ht. rewrite lookup_insert_ne by done. by apply lookup_delete_ne.
  - split; [done|]. exists tenant. by rewrite lookup_insert_eq.
Qed.

Lemma delete_twice me (l : gmap nat (option Tenant.t)) :
  delete me (delete me l) = delete me l.
Proof. apply delete_id, lookup_delete_eq. Qed.

(** After the framework has driven the hooks, the running thread has no
    tenant, whatever the downstream handler did. *)
Lemma call_leaves_no_tenant me get_response on_error s :
  thread_locals (fst (call me get_response on_error s)) !! me = None.
Proof.
  unfold call. unfold bind at 1.
  destruct (process_request_effect me s) as (_ & _ & Hslot).
  destruct (process_request me s) as [s1 [[response|]|e]]; simpl in *.
  - rewrite process_response_run. apply lookup_delete_eq.
  - unfold bind, try_except, modify.
    destruct (get_response (record (CallDownstream me) s1)) as [s2 [response|e]].
    + rewrite process_response_run. apply lookup_delete_eq.
    + rewrite process_exception_run. simpl.
      rewrite process_response_run. apply lookup_delete_eq.
  - by destruct Hslot as [Hnone | [[=] _]].
Qed.
End RequestEffects.

(** C2. [process_request] begins by clearing the context, so what a former
    request left in the running thread has no influence on it;
    [process_response] and [process_exception] clear it again; and when the
    framework has driven the hooks for a request, on every path (early
    response, downstream response, downstream exception, exception out of
    [process_request]) the running thread has no tenant. *)
Theorem tenant_context_cleared `{Collaborators} (me : nat) (s : State) :
  (forall leftover,
     TenantMiddleware.process_request me
       (with_thread_locals (<[me := leftover]> (thread_locals s)) s)
     = TenantMiddleware.process_request me s)
  /\ (forall response,
        TenantMiddleware.process_response me response s
        = (with_thread_locals (delete me (thread_locals s)) s, Ok response))
  /\ (forall exception,
        TenantMiddleware.process_exception me exception s
        = (with_thread_locals (delete me (thread_locals s)) s, Ok None))
  /\ (forall get_response on_error,
        thread_locals
          (fst (TenantMiddleware.call me get_response on_error s)) !! me = None
        /\ snd (get_current_tenant me
                  (fst (TenantMiddleware.call me get_response on_error s)))
           = Ok None).
Proof.
  split_and!.
  - intros leftover.
    rewrite !process_request_run, service_with_thread_locals. simpl.
    by rewrite delete_insert_eq.
  - intros response. apply process_response_run.
  - intros exception. apply process_exception_run.
  - intros get_response on_error.
    pose proof (call_leaves_no_tenant me get_response on_error s) as Hnone.
    split; [exact Hnone|]. by rewrite get_current_tenant_absent.
Qed.

(** C5. An authenticated request for a path that is not excluded, whose
    identity has an inactive tenant: [process_request] answers 403
    "Tenant inactive", the framework returns that response without calling
    the downstream handler, no tenant is published along the way, and the
    running thread ends without a tenant. *)
Theorem inactive_tenant_forbidden `{Collaborators}
    (me : nat) (s s1 : State) (user : AuthenticatedUser.t) (token : string)
    (tenant : Tenant.t) :
  any_startswith (path (request s)) TenantMiddleware.EXCLUDED_PATHS = false ->
  AuthenticationService.authenticate s = (s1, Ok (Some (Some user, token))) ->
  AuthenticatedUser.tenant user = Some tenant ->
  Tenant.is_active tenant = false ->
  exists s',
    TenantMiddleware.process_request me s
    = (s', Ok (Some TenantMiddleware.tenant_inactive))
    /\ (forall get_response on_error,
          TenantMiddleware.call me get_response on_error s
          = (s', Ok TenantMiddleware.tenant_inactive))
    /\ status TenantMiddleware.tenant_inactive = 403
    /\ data TenantMiddleware.tenant_inactive !! 0%nat
       = Some ("error", "Tenant inactive")
    /\ publications (log s') = publications (log s)
    /\ downstream_calls (log s') = downstream_calls (log s)
    /\ thread_locals s' !! me = None.
Proof.
  intros Hpath Hauth Htenant Hoff.
  exists (with_thread_locals (delete me (thread_locals s)) s1).
  assert (Hrun : TenantMiddleware.process_request me s
                 = (with_thread_locals (delete me (thread_locals s)) s1,
                    Ok (Some TenantMiddleware.tenant_inactive))).
  { rewrite process_request_run. simpl.
    rewrite Hpath, Hauth. simpl. by rewrite Htenant, Hoff. }
  split_and!; try done.
  - intros get_response on_error. unfold TenantMiddleware.call, bind at 1.
    rewrite Hrun, process_response_run. simpl.
    by rewrite delete_twice.
  - pose proof (service_publications s) as Hlog. by rewrite Hauth in Hlog.
  - pose proof (service_downstream_calls s) as Hlog. by rewrite Hauth in Hlog.
  - apply lookup_delete_eq.
Qed.

Lemma inactive_tenant_forbidden_witness :
  exists s',
    @TenantMiddleware.process_request sample_collaborators 0%nat
      inactive_tenant_state
    = (s', Ok (Some TenantMiddleware.tenant_inactive))
    /\ (forall get_response on_error,
          @TenantMiddleware.call sample_collaborators 0%nat get_response on_error
            inactive_tenant_state
          = (s', Ok TenantMiddleware.tenant_inactive))
    /\ status TenantMiddleware.tenant_inactive = 403
    /\ data TenantMiddleware.tenant_inactive !! 0%nat
       = Some ("error", "Tenant inactive")
    /\ publications (log s') = publications (log inactive_tenant_state)
    /\ downstream_calls (log s') = downstream_calls (log inactive_tenant_state)
    /\ thread_locals s' !! 0%nat = None.
Proof.
  eapply (@inactive_tenant_forbidden sample_collaborators 0%nat
            inactive_tenant_state).
  - reflexivity.
  - vm_compute. reflexivity.
  - reflexivity.
  - reflexivity.
Defined.

(** ** Concurrent requests *)

Section Isolation.
Context `{Collaborators}.
Implicit Types (me t : nat) (s : State) (a : action).

(** The tenant a request is bound to depends on the database only. *)
Lemma bound_tenant_ext r s s' :
  db s = db s' -> bound_tenant r s = bound_tenant r s'.
Proof.
  intros Hdb. unfold bound_tenant.
  pose proof (service_answer_ext (with_request r s) (with_request r s')
                eq_refl Hdb) as Hanswer.
  destruct (AuthenticationService.authenticate (with_request r s)) as [? ans].
  destruct (AuthenticationService.authenticate (with_request r s')) as [? ans'].
  simpl in Hanswer. by subst ans'.
Qed.

Section OneThread.
(** Thread [t] serves request [r], bound to tenant [T] under database
    [d0]. *)
Variables (t : nat) (r : Request) (T : Tenant.t) (d0 : Database).
Hypothesis bound : forall s, db s = d0 -> bound_tenant r s = Some T.

Lemma step_own_context me a s :
  db s = d0 -> own_context t T s -> fair t r (me, a) ->
  db (step me a s).1 = d0
  /\ own_context t T (step me a s).1
  /\ (forall v, (step me a s).2 = Some v -> me = t -> v = None \/ v = Some T).
Proof.
  intros Hdb Hown Hfair. unfold fair in Hfair. simpl in Hfair.
  destruct a as [r'| |response|exception]; simpl.
  - destruct (process_request_effect me (with_request r' s))
      as (Hdb' & Hothers & Hmine). simpl in *.
    split_and!; [congruence| |done].
    destruct (decide (me = t)) as [->|Hne].
    + rewrite (Hfair eq_refl) in *.
      destruct Hmine as [Hnone | (_ & tenant & Hslot & Hbound)];
        [by left|right].
      rewrite (bound_tenant_ext r _ s), (bound s Hdb) in Hbound by done.
      by injection Hbound as <-.
    + unfold own_context. by rewrite Hothers.
  - unfold get_current_tenant, gets. simpl.
    split_and!; [done..|].
    intros v [= <-] ->. by destruct Hown as [-> | ->]; [left|right].
  - rewrite process_response_run. simpl.
    split_and!; [done| |done].
    unfold own_context. simpl. destruct (decide (me = t)) as [->|Hne].
    + left. apply lookup_delete_eq.
    + by rewrite lookup_delete_ne.
  - rewrite process_exception_run. simpl.
    split_and!; [done| |done].
    unfold own_context. simpl. destruct (decide (me = t)) as [->|Hne].
    + left. apply lookup_delete_eq.
    + by rewrite lookup_delete_ne.
Qed.

(** Along any schedule, [t] reads nothing or [T]. *)
Lemma run_own_context schedule s :
  db s = d0 -> own_context t T s -> Forall (fair t r) schedule ->
  Forall (fun read => read.1 = t -> read.2 = None \/ read.2 = Some T)
    (run schedule s).2.
Proof.
  revert s. induction schedule as [|[me a] rest IH]; intros s Hdb Hown Hfair.
  { constructor. }
  apply Forall_cons in Hfair as [Hfair Hrest].
  destruct (step_own_context me a s Hdb Hown Hfair) as (Hdb' & Hown' & Hread).
  specialize (IH (step me a s).1 Hdb' Hown' Hrest).
  simpl. destruct (step me a s) as [s1 seen]. simpl in *.
  destruct (run rest s1) as [s2 reads]. simpl in *.
  destruct seen as [v|]; [|done].
  constructor; [|done]. simpl. intros ->. by apply Hread.
Qed.
End OneThread.
End Isolation.

(** C1. Two requests bound to distinct tenants [A] and [B] are served by
    distinct threads [t1] and [t2] that start without a tenant, interleaved
    in any order and together with any other threads: whenever [t1] reads
    the current tenant it does not get [B], and whenever [t2] reads it, it
    does not get [A]. The context is looked up under the running thread. *)
Theorem concurrent_requests_isolated `{Collaborators}
    (t1 t2 : nat) (r1 r2 : Request) (A B : Tenant.t)
    (schedule : list (nat * action)) (s : State) :
  t1 <> t2 -> A <> B ->
  bound_tenant r1 s = Some A -> bound_tenant r2 s = Some B ->
  thread_locals s !! t1 = None -> thread_locals s !! t2 = None ->
  Forall (fun ev => (ev.1 = t1 -> serves r1 ev.2) /\ (ev.1 = t2 -> serves r2 ev.2))
    schedule ->
  Forall (fun read => (read.1 = t1 -> read.2 <> Some B)
                      /\ (read.1 = t2 -> read.2 <> Some A))
    (run schedule s).2.
Proof.
  intros Hthreads Htenants HA HB Hnone1 Hnone2 Hfair.
  assert (H1 : Forall (fun read => read.1 = t1 -> read.2 = None \/ read.2 = Some A)
                 (run schedule s).2).
  { apply (run_own_context t1 r1 A (db s)); [|done|by left|].
    - intros s' Hdb. by rewrite (bound_tenant_ext r1 s' s).
    - eapply Forall_impl; [exact Hfair|]. by intros ev [? _]. }
  assert (H2 : Forall (fun read => read.1 = t2 -> read.2 = None \/ read.2 = Some B)
                 (run schedule s).2).
  { apply (run_own_context t2 r2 B (db s)); [|done|by left|].
    - intros s' Hdb. by rewrite (bound_tenant_ext r2 s' s).
    - eapply Forall_impl; [exact Hfair|]. by intros ev [_ ?]. }
  rewrite Forall_forall in H1, H2. apply Forall_forall. intros read Hin. split.
  - intros Ht1. destruct (H1 read Hin Ht1) as [-> | ->]; congruence.
  - intros Ht2. destruct (H2 read Hin Ht2) as [-> | ->]; congruence.
Qed.

(** On the sample schedule each thread reads its own tenant while its
    request is in progress and nothing once it is over. *)
Example sample_schedule_reads :
  (@run sample_collaborators sample_schedule
     (sample_state request_alpha sample_db)).2
  = [ (1%nat, Some (sample_tenant 1 "alpha" true));
      (2%nat, Some (sample_tenant 2 "beta" true));
      (2%nat, Some (sample_tenant 2 "beta" true));
      (1%nat, None);
      (2%nat, None) ].
Proof. vm_compute. reflexivity. Qed.

Lemma concurrent_requests_isolated_witness :
  Forall (fun read =>
            (read.1 = 1%nat -> read.2 <> Some (sample_tenant 2 "beta" true))
            /\ (read.1 = 2%nat -> read.2 <> Some (sample_tenant 1 "alpha" true)))
    (@run sample_collaborators sample_schedule
       (sample_state request_alpha sample_db)).2.
Proof.
  apply (@concurrent_requests_isolated sample_collaborators 1%nat 2%nat
           request_alpha request_beta
           (sample_tenant 1 "alpha" true) (sample_tenant 2 "beta" true)).
  - lia.
  - discriminate.
  - vm_compute. reflexivity.
  - vm_compute. reflexivity.
  - reflexivity.
  - reflexivity.
  - repeat constructor; simpl; intros; (reflexivity || lia || exact I).
Defined.

(** * Further properties of the code *)

(** ** The context cell, operation by operation *)

(** X1. What a thread stores with [set_current_tenant] is what it reads
    back, until it clears; storing and clearing in one thread leave every
    other thread's reading as it was. *)
Theorem context_round_trip (me other : nat) (tenant : option Tenant.t) (s : State) :
  me <> other ->
  exists s1 s2,
    set_current_tenant me tenant s = (s1, Ok tt)
    /\ get_current_tenant me s1 = (s1, Ok tenant)
    /\ get_current_tenant other s1 = (s1, (get_current_tenant other s).2)
    /\ clear_current_tenant me s1 = (s2, Ok tt)
    /\ get_current_tenant me s2 = (s2, Ok None)
    /\ get_current_tenant other s2 = (s2, (get_current_tenant other s).2).
Proof.
  intros Hne.
  set (s1 := record (SetTenant me tenant)
               (with_thread_locals (<[me:=tenant]> (thread_locals s)) s)).
  exists s1, (with_thread_locals (delete me (thread_locals s1)) s1).
  rewrite clear_current_tenant_spec.
  unfold get_current_tenant, gets. simpl.
  rewrite lookup_insert_eq, lookup_delete_eq.
  rewrite lookup_delete_ne, lookup_insert_ne by done.
  done.
Qed.

Lemma context_round_trip_witness :
  exists s1 s2,
    set_current_tenant 1%nat (Some (sample_tenant 1 "alpha" true))
      (sample_state request_alpha sample_db) = (s1, Ok tt)
    /\ get_current_tenant 1%nat s1 = (s1, Ok (Some (sample_tenant 1 "alpha" true)))
    /\ get_current_tenant 2%nat s1
       = (s1, (get_current_tenant 2%nat (sample_state request_alpha sample_db)).2)
    /\ clear_current_tenant 1%nat s1 = (s2, Ok tt)
    /\ get_current_tenant 1%nat s2 = (s2, Ok None)
    /\ get_current_tenant 2%nat s2
       = (s2, (get_current_tenant 2%nat (sample_state request_alpha sample_db)).2).
Proof.
  apply (context_round_trip 1%nat 2%nat (Some (sample_tenant 1 "alpha" true))
           (sample_state request_alpha sample_db)).
  lia.
Defined.

(** ** [process_request], path by path *)

(** X2. A path under one of [EXCLUDED_PATHS] is let through without the
    authenticator being run: whatever credentials the request carries,
    nothing is validated, the request object is not touched, and the
    running thread is left without a tenant. *)
Theorem excluded_path_bypasses `{Collaborators} (me : nat) (s : State) :
  any_startswith (path (request s)) TenantMiddleware.EXCLUDED_PATHS = true ->
  exists s',
    TenantMiddleware.process_request me s = (s', Ok None)
    /\ request s' = request s
    /\ log s' = log s
    /\ db s' = db s
    /\ thread_locals s' = delete me (thread_locals s).
Proof.
  intros Hpath. eexists. rewrite process_request_run. simpl. rewrite Hpath.
  split; [reflexivity|]. done.
Qed.

Lemma excluded_path_bypasses_witness :
  exists s',
    @TenantMiddleware.process_request sample_collaborators 0%nat
      (sample_state
         (sample_request "/api/v1/auth/login/" (Some "Bearer garbage")) sample_db)
    = (s', Ok None)
    /\ request s'
       = sample_request "/api/v1/auth/login/" (Some "Bearer garbage")
    /\ log s' = []
    /\ db s' = sample_db
    /\ thread_locals s' = delete 0%nat ∅.
Proof.
  apply (@excluded_path_bypasses sample_collaborators 0%nat
           (sample_state
              (sample_request "/api/v1/auth/login/" (Some "Bearer garbage"))
              sample_db)).
  reflexivity.
Defined.

(** X3. A path that [PUBLIC_URL] lists but [EXCLUDED_PATHS] does not: the
    service answers [None], and unpacking it in [process_request] raises
    [TypeError]. *)
Theorem public_path_raises_TypeError `{Collaborators} (me : nat) (s : State) :
  any_startswith (path (request s)) TenantMiddleware.EXCLUDED_PATHS = false ->
  any_startswith (path (request s)) PUBLIC_URL = true ->
  TenantMiddleware.process_request me s
  = (with_thread_locals (delete me (thread_locals s)) s, Raise TypeError).
Proof.
  intros Hpath Hpublic. rewrite process_request_run. simpl. rewrite Hpath.
  unfold AuthenticationService.authenticate, bind, gets. simpl.
  by rewrite Hpublic.
Qed.

Lemma public_path_raises_TypeError_witness :
  @TenantMiddleware.process_request sample_collaborators 0%nat
    (sample_state (sample_request "/health/" None) sample_db)
  = (with_thread_locals (delete 0%nat ∅)
       (sample_state (sample_request "/health/" None) sample_db),
     Raise TypeError).
Proof.
  apply (@public_path_raises_TypeError sample_collaborators 0%nat
           (sample_state (sample_request "/health/" None) sample_db));
    reflexivity.
Defined.

(** X4. An authenticated request whose identity has no tenant is answered
    403 "No tenant associated with user"; no tenant is published and the
    downstream handler is not called. *)
Theorem identity_without_tenant_forbidden `{Collaborators}
    (me : nat) (s s1 : State) (user : AuthenticatedUser.t) (token : string) :
  any_startswith (path (request s)) TenantMiddleware.EXCLUDED_PATHS = false ->
  AuthenticationService.authenticate s = (s1, Ok (Some (Some user, token))) ->
  AuthenticatedUser.tenant user = None ->
  exists s',
    TenantMiddleware.process_request me s
    = (s', Ok (Some TenantMiddleware.no_tenant))
    /\ (forall get_response on_error,
          TenantMiddleware.call me get_response on_error s
          = (s', Ok TenantMiddleware.no_tenant))
    /\ status TenantMiddleware.no_tenant = 403
    /\ publications (log s') = publications (log s)
    /\ downstream_calls (log s') = downstream_calls (log s)
    /\ thread_locals s' !! me = None.
Proof.
  intros Hpath Hauth Htenant.
  exists (with_thread_locals (delete me (thread_locals s)) s1).
  assert (Hrun : TenantMiddleware.process_request me s
                 = (with_thread_locals (delete me (thread_locals s)) s1,
                    Ok (Some TenantMiddleware.no_tenant))).
  { rewrite process_request_run. simpl.
    rewrite Hpath, Hauth. simpl. by rewrite Htenant. }
  split_and!; try done.
  - intros get_response on_error. unfold TenantMiddleware.call, bind at 1.
    rewrite Hrun, process_response_run. simpl.
    by rewrite delete_twice.
  - pose proof (service_publications s) as Hlog. by rewrite Hauth in Hlog.
  - pose proof (service_downstream_calls s) as Hlog. by rewrite Hauth in Hlog.
  - apply lookup_delete_eq.
Qed.

Lemma identity_without_tenant_forbidden_witness :
  exists s',
    @TenantMiddleware.process_request sample_collaborators 0%nat admin_request_state
    = (s', Ok (Some TenantMiddleware.no_tenant))
    /\ (forall get_response on_error,
          @TenantMiddleware.call sample_collaborators 0%nat get_response on_error
            admin_request_state
          = (s', Ok TenantMiddleware.no_tenant))
    /\ status TenantMiddleware.no_tenant = 403
    /\ publications (log s') = publications (log admin_request_state)
    /\ downstream_calls (log s') = downstream_calls (log admin_request_state)
    /\ thread_locals s' !! 0%nat = None.
Proof.
  eapply (@identity_without_tenant_forbidden sample_collaborators 0%nat
            admin_request_state).
  - reflexivity.
  - vm_compute. reflexivity.
  - reflexivity.
Defined.

(** The run of [process_request] on the path that publishes a tenant. *)
Lemma let_through_run `{Collaborators}
    (me : nat) (s s1 : State) (user : AuthenticatedUser.t) (token : string)
    (tenant : Tenant.t) :
  any_startswith (path (request s)) TenantMiddleware.EXCLUDED_PATHS = false ->
  AuthenticationService.authenticate s = (s1, Ok (Some (Some user, token))) ->
  AuthenticatedUser.tenant user = Some tenant ->
  Tenant.is_active tenant = true ->
  exists s',
    TenantMiddleware.process_request me s = (s', Ok None)
    /\ thread_locals s' = <[me := Some tenant]> (delete me (thread_locals s))
    /\ attr_tenant (request s') = Some tenant
    /\ log s' = log s1 ++ [SetTenant me (Some tenant)]
    /\ db s' = db s.
Proof.
  intros Hpath Hauth Htenant Hon.
  eexists. split.
  { rewrite process_request_run. simpl.
    rewrite Hpath, Hauth. simpl. rewrite Htenant, Hon. simpl. reflexivity. }
  pose proof (service_db s) as Hdb. rewrite Hauth in Hdb.
  simpl in *. done.
Qed.

(** X5. An authenticated request whose identity has an active tenant is let
    through: [process_request] answers [None], the running thread now reads
    that tenant, the request carries it as [request.tenant], exactly one
    tenant has been published, and the other threads and the database are
    as before. *)
Theorem active_tenant_published `{Collaborators}
    (me : nat) (s s1 : State) (user : AuthenticatedUser.t) (token : string)
    (tenant : Tenant.t) :
  any_startswith (path (request s)) TenantMiddleware.EXCLUDED_PATHS = false ->
  AuthenticationService.authenticate s = (s1, Ok (Some (Some user, token))) ->
  AuthenticatedUser.tenant user = Some tenant ->
  Tenant.is_active tenant = true ->
  exists s',
    TenantMiddleware.process_request me s = (s', Ok None)
    /\ get_current_tenant me s' = (s', Ok (Some tenant))
    /\ attr_tenant (request s') = Some tenant
    /\ publications (log s') = publications (log s) ++ [(me, Some tenant)]
    /\ (forall t, t <> me -> thread_locals s' !! t = thread_locals s !! t)
    /\ db s' = db s.
Proof.
  intros Hpath Hauth Htenant Hon.
  destruct (let_through_run me s s1 user token tenant Hpath Hauth Htenant Hon)
    as (s' & Hrun & Hlocals & Hattr & Hlog & Hdb).
  pose proof (service_publications s) as Hpub. rewrite Hauth in Hpub.
  exists s'. split_and!; try done.
  - unfold get_current_tenant, gets. by rewrite Hlocals, lookup_insert_eq.
  - rewrite Hlog. unfold publications in *. rewrite omap_app. simpl in *.
    by rewrite Hpub.
  - intros t Ht. rewrite Hlocals, lookup_insert_ne by done.
    by apply lookup_delete_ne.
Qed.

Lemma active_tenant_published_witness :
  exists s',
    @TenantMiddleware.process_request sample_collaborators 1%nat
      (sample_state request_alpha sample_db) = (s', Ok None)
    /\ get_current_tenant 1%nat s' = (s', Ok (Some (sample_tenant 1 "alpha" true)))
    /\ attr_tenant (request s') = Some (sample_tenant 1 "alpha" true)
    /\ publications (log s')
       = publications (log (sample_state request_alpha sample_db))
         ++ [(1%nat, Some (sample_tenant 1 "alpha" true))]
    /\ (forall t, t <> 1%nat ->
          thread_locals s' !! t
          = thread_locals (sample_state request_alpha sample_db) !! t)
    /\ db s' = db (sample_state request_alpha sample_db).
Proof.
  eapply (@active_tenant_published sample_collaborators 1%nat
            (sample_state request_alpha sample_db)).
  - reflexivity.
  - vm_compute. reflexivity.
  - reflexivity.
  - reflexivity.
Defined.

(** X6. For such a request the framework runs the downstream handler in a
    state where the running thread reads the tenant, hands back the
    handler's response unchanged (or the error response when the handler
    raises), never raises itself, and leaves the thread without a tenant. *)
Theorem call_passes_through `{Collaborators}
    (me : nat) (s s1 : State) (user : AuthenticatedUser.t) (token : string)
    (tenant : Tenant.t) (get_response : M State JsonResponse)
    (on_error : exn -> JsonResponse) :
  any_startswith (path (request s)) TenantMiddleware.EXCLUDED_PATHS = false ->
  AuthenticationService.authenticate s = (s1, Ok (Some (Some user, token))) ->
  AuthenticatedUser.tenant user = Some tenant ->
  Tenant.is_active tenant = true ->
  exists s_in,
    get_current_tenant me s_in = (s_in, Ok (Some tenant))
    /\ downstream_calls (log s_in) = downstream_calls (log s) ++ [me]
    /\ TenantMiddleware.call me get_response on_error s
       = (with_thread_locals
            (delete me (thread_locals (get_response s_in).1))
            (get_response s_in).1,
          Ok match (get_response s_in).2 with
             | Ok response => response
             | Raise exception => on_error exception
             end).
Proof.
  intros Hpath Hauth Htenant Hon.
  destruct (let_through_run me s s1 user token tenant Hpath Hauth Htenant Hon)
    as (s' & Hrun & Hlocals & _ & Hlog & _).
  pose proof (service_downstream_calls s) as Hcalls. rewrite Hauth in Hcalls.
  exists (record (CallDownstream me) s'). split_and!.
  - unfold get_current_tenant, gets. simpl. by rewrite Hlocals, lookup_insert_eq.
  - simpl. rewrite Hlog. unfold downstream_calls in *.
    rewrite !omap_app. simpl in *. by rewrite Hcalls, app_nil_r.
  - unfold TenantMiddleware.call, bind at 1. rewrite Hrun.
    unfold bind, try_except, modify.
    destruct (get_response (record (CallDownstream me) s')) as [s2 [response|e]].
    + by rewrite process_response_run.
    + rewrite process_exception_run. simpl.
      rewrite process_response_run. simpl. by rewrite delete_twice.
Qed.

Lemma call_passes_through_witness :
  exists s_in,
    get_current_tenant 1%nat s_in = (s_in, Ok (Some (sample_tenant 1 "alpha" true)))
    /\ downstream_calls (log s_in)
       = downstream_calls (log (sample_state request_alpha sample_db)) ++ [1%nat]
    /\ @TenantMiddleware.call sample_collaborators 1%nat (ret ok_response)
         (fun _ => mkJsonResponse [] 500) (sample_state request_alpha sample_db)
       = (with_thread_locals
            (delete 1%nat (thread_locals (ret ok_response s_in).1))
            (ret ok_response s_in).1,
          Ok match (ret ok_response s_in).2 with
             | Ok response => response
             | Raise exception => mkJsonResponse [] 500
             end).
Proof.
  eapply (@call_passes_through sample_collaborators 1%nat
            (sample_state request_alpha sample_db)).
  - reflexivity.
  - vm_compute. reflexivity.
  - reflexivity.
  - reflexivity.
Defined.

(** ** The authenticator on a good token *)

Section GoodToken.
Context `{Collaborators}.

Lemma user_tenant_run u s :
  user_tenant u s = (s, (user_tenant u s).2).
Proof.
  unfold user_tenant, bind, gets, ret, raise.
  destruct (User.tenant_id u) as [k|]; [|done]. simpl.
  by destruct (tenants (db s) !! k).
Qed.

Lemma user_tenant_ext u s s' :
  db s = db s' -> (user_tenant u s).2 = (user_tenant u s').2.
Proof.
  intros Hdb. unfold user_tenant, bind, gets, ret, raise.
  destruct (User.tenant_id u) as [k|]; [|done]. simpl. rewrite Hdb.
  by destruct (tenants (db s') !! k).
Qed.
End GoodToken.

(** The run of the strategy on a good token. *)
Lemma good_token_run `{Collaborators}
    (s : State) (token : string) (p : Token) (user_id : Z) (u : User.t)
    (tenant : option Tenant.t) :
  presents s token ->
  UntypedToken token = Ok p -> token_bool p = true ->
  claim_user_id p = Some user_id ->
  users (db s) !! user_id = Some u ->
  (user_tenant u s).2 = Ok tenant ->
  JwtAuthenticationStrategy.authenticate s
  = (with_request
       (mkRequest (path (request s)) (headers (request s)) (META (request s))
          (Some user_id) (Some (claim_role p)) (attr_tenant (request s)))
       (record (CallValidator token) s),
     Ok (Some (AuthenticatedUser.mk user_id (claim_role p) user_id true
                 tenant (User.is_staff u)),
         token)).
Proof.
  intros (h & Hh & Hpre & Htok) Hparse Htruthy Hsub Hrow Htenant.
  destruct h as [|c h']; [by vm_compute in Hpre|].
  unfold JwtAuthenticationStrategy.authenticate, bind, gets. simpl.
  fold (authorization_of (request s)). rewrite Hh, Hpre. simpl.
  unfold JwtAuthenticationStrategy.second_piece. rewrite Htok.
  unfold ret, JwtAuthenticationStrategy.token_validation, bind, modify,
    try_except, raise.
  rewrite Hparse, Htruthy. simpl. rewrite Hsub.
  unfold JwtAuthenticationStrategy.attach_claims,
    JwtAuthenticationStrategy.get_user, modify, bind, gets. simpl.
  rewrite Hrow. unfold ret, new_AuthenticatedUser, bind.
  rewrite user_tenant_run.
  erewrite (user_tenant_ext u _ s) by reflexivity.
  by rewrite Htenant.
Qed.

(** X7. A request that presents a token the library accepts, with a
    [user_id] that has a row whose tenant resolves: the strategy returns
    the token and an identity made of the token's [user_id] and role and
    the row's tenant and [is_staff] (the row's own role and [is_active] are
    not read), attaches [user_id] and role to the request, has entered the
    validator once, and leaves context and database alone. *)
Theorem good_token_identity `{Collaborators}
    (s : State) (token : string) (p : Token) (user_id : Z) (u : User.t)
    (tenant : option Tenant.t) :
  presents s token ->
  UntypedToken token = Ok p -> token_bool p = true ->
  claim_user_id p = Some user_id ->
  users (db s) !! user_id = Some u ->
  (user_tenant u s).2 = Ok tenant ->
  exists s',
    JwtAuthenticationStrategy.authenticate s
    = (s', Ok (Some (AuthenticatedUser.mk user_id (claim_role p) user_id true
                       tenant (User.is_staff u)),
               token))
    /\ attr_user_id (request s') = Some user_id
    /\ attr_role (request s') = Some (claim_role p)
    /\ log s' = log s ++ [CallValidator token]
    /\ thread_locals s' = thread_locals s
    /\ db s' = db s.
Proof.
  intros Hpresents Hparse Htruthy Hsub Hrow Htenant.
  eexists. split.
  { by apply good_token_run with (u := u). }
  simpl. done.
Qed.

Lemma good_token_identity_witness :
  exists s',
    @JwtAuthenticationStrategy.authenticate sample_collaborators
      (sample_state request_alpha sample_db)
    = (s', Ok (Some (AuthenticatedUser.mk 10 (Some "tenant_user") 10 true
                       (Some (sample_tenant 1 "alpha" true)) false),
               "tok10"))
    /\ attr_user_id (request s') = Some 10
    /\ attr_role (request s') = Some (Some "tenant_user")
    /\ log s' = [] ++ [CallValidator "tok10"]
    /\ thread_locals s' = ∅
    /\ db s' = sample_db.
Proof.
  apply (@good_token_identity sample_collaborators
           (sample_state request_alpha sample_db) "tok10"
           (mkToken (Some 10) (Some "tenant_user")) 10
           (sample_user 10 (Some 1) "a@alpha" true)
           (Some (sample_tenant 1 "alpha" true))).
  - exists "Bearer tok10". split_and!; reflexivity.
  - reflexivity.
  - reflexivity.
  - reflexivity.
  - reflexivity.
  - reflexivity.
Defined.

(** X8. Neither the authenticator nor [process_request] looks at a user's
    [is_active]: rewriting that flag on any users changes neither the
    authenticator's answer nor the middleware's. *)
Theorem identity_ignores_user_is_active `{Collaborators}
    (flag : User.t -> bool) (me : nat) (s : State) :
  (AuthenticationService.authenticate (with_db (reflag_users flag (db s)) s)).2
  = (AuthenticationService.authenticate s).2
  /\ (TenantMiddleware.process_request me (with_db (reflag_users flag (db s)) s)).2
     = (TenantMiddleware.process_request me s).2.
Proof.
  assert (Hservice :
    (AuthenticationService.authenticate (with_db (reflag_users flag (db s)) s)).2
    = (AuthenticationService.authenticate s).2).
  { destruct s as [r tl [tns us] lg]. unfold with_db, reflag_users. simpl.
    unfold_auth. simpl.
    repeat (simpl;
            match goal with
            | |- context [(?f <$> us) !! ?k] =>
                rewrite (lookup_fmap f us k); destruct (us !! k) eqn:?
            | |- context [match ?x with _ => _ end] =>
                lazymatch x with
                | context [match _ with _ => _ end] => fail
                | context [fmap] => fail
                | _ => destruct x eqn:?
                end
            end); simpl; try reflexivity. }
  split; [exact Hservice|].
  rewrite !process_request_run. simpl.
  destruct (any_startswith (path (request s)) TenantMiddleware.EXCLUDED_PATHS);
    [done|].
  rewrite Hservice.
  destruct (AuthenticationService.authenticate s).2
    as [[[[user|] token]|]|e]; try done.
  destruct (AuthenticatedUser.tenant user) as [tenant|]; [|done].
  by destruct (Tenant.is_active tenant).
Qed.

(** ** Which part of the header is the token *)

Section BearerToken.
Context `{Collaborators}.

Lemma split_no_space tok :
  has_space tok = false -> split " "%char tok = [tok].
Proof.
  induction tok as [|c rest IH]; simpl; [done|].
  destruct (Ascii.eqb c " "); simpl; [done|].
  intros Hrest. by rewrite (IH Hrest).
Qed.

Lemma split_at_space tok junk :
  has_space tok = false ->
  split " "%char (tok +:+ String " " junk) = tok :: split " "%char junk.
Proof.
  induction tok as [|c rest IH]; simpl; [done|].
  destruct (Ascii.eqb c " "); simpl; [done|].
  intros Hrest. by rewrite (IH Hrest).
Qed.

Lemma split_bearer rest :
  split " "%char ("Bearer " +:+ rest) = "Bearer" :: split " "%char rest.
Proof. apply (split_at_space "Bearer" rest). reflexivity. Qed.

(** Whatever happens after, the validator is entered once, on the token
    the request presents. *)
Lemma presented_token_validated s token :
  presents s token ->
  validator_calls (log (JwtAuthenticationStrategy.authenticate s).1)
  = validator_calls (log s) ++ [token].
Proof.
  intros (h & Hh & Hpre & Htok).
  destruct h as [|c h']; [by vm_compute in Hpre|].
  unfold JwtAuthenticationStrategy.authenticate, bind, gets. simpl.
  fold (authorization_of (request s)). rewrite Hh, Hpre. simpl.
  unfold JwtAuthenticationStrategy.second_piece. rewrite Htok.
  destruct s as [r tl d lg]. unfold_auth. simpl.
  assert (Hlog : validator_calls (lg ++ [CallValidator token])
                 = validator_calls lg ++ [token]).
  { unfold validator_calls. by rewrite omap_app. }
  auth_cases; exact Hlog.
Qed.
End BearerToken.

(** X9. The token is the piece between the first and the second space of
    the header: for a header ["Bearer " ++ tok ++ tail] where [tok] has no
    space and [tail] is empty or starts with a space, the validator is
    entered once, on [tok], whatever follows it. This includes an empty
    [tok]: the header ["Bearer "] sends the empty token to the validator. *)
Theorem bearer_token_second_piece `{Collaborators}
    (s : State) (tok tail : string) :
  has_space tok = false ->
  tail = "" \/ startswith tail " " = true ->
  authorization_of (request s) = Some ("Bearer " +:+ tok +:+ tail) ->
  presents s tok
  /\ validator_calls (log (JwtAuthenticationStrategy.authenticate s).1)
     = validator_calls (log s) ++ [tok].
Proof.
  intros Htok Htail Hh.
  assert (Hpresents : presents s tok).
  { exists ("Bearer " +:+ tok +:+ tail).
    split_and!; [done|unfold startswith; simpl; by destruct (tok +:+ tail)|].
    rewrite split_bearer. simpl.
    destruct Htail as [-> | Hspace].
    - replace (tok +:+ "") with tok
        by (clear; induction tok as [|c rest IH]; [done|];
            change (String c rest = String c (rest +:+ "")); by f_equal).
      by rewrite split_no_space.
    - destruct tail as [|c junk]; [done|].
      unfold startswith in Hspace. cbn [String.prefix] in Hspace.
      destruct (ascii_dec " " c) as [<-|]; [|done].
      by rewrite split_at_space. }
  split; [exact Hpresents|]. by apply presented_token_validated.
Qed.

Lemma bearer_token_second_piece_witness :
  presents
    (sample_state
       (sample_request "/api/v1/patients/" (Some "Bearer tok10 and more")) sample_db)
    "tok10"
  /\ validator_calls
       (log (@JwtAuthenticationStrategy.authenticate sample_collaborators
               (sample_state
                  (sample_request "/api/v1/patients/"
                     (Some "Bearer tok10 and more")) sample_db)).1)
     = validator_calls
         (log (sample_state
                 (sample_request "/api/v1/patients/"
                    (Some "Bearer tok10 and more")) sample_db))
       ++ ["tok10"].
Proof.
  apply (@bearer_token_second_piece sample_collaborators
           (sample_state
              (sample_request "/api/v1/patients/" (Some "Bearer tok10 and more"))
              sample_db)
           "tok10" " and more").
  - reflexivity.
  - right. reflexivity.
  - reflexivity.
Defined.

(** ** Permissions *)

Section PermissionFacts.
Context `{Collaborators}.

(** An identity that the service returns is marked authenticated. *)
Lemma service_answer_authenticated s s' user token :
  AuthenticationService.authenticate s = (s', Ok (Some (Some user, token))) ->
  AuthenticatedUser.is_authenticated user = true.
Proof.
  destruct s as [r tl d lg]. unfold_auth.
  auth_cases; intros [= <- <- <-] || intros [=]; reflexivity.
Qed.

Lemma tenant_eq_true a b :
  tenant_eq a b = true
  <-> (a = None /\ b = None)
      \/ exists x y, a = Some x /\ b = Some y /\ Tenant.pk x = Tenant.pk y.
Proof.
  destruct a as [x|], b as [y|]; simpl; split.
  - intros Hpk%bool_decide_eq_true. right. eauto.
  - intros [[[=] _] | (x' & y' & [= <-] & [= <-] & Hpk)].
    by apply bool_decide_eq_true.
  - done.
  - intros [[[=] _] | (? & ? & _ & [=] & _)].
  - done.
  - intros [[_ [=]] | (? & ? & [=] & _)].
  - by left.
  - done.
Qed.
End PermissionFacts.

(** X10. Whoever passes [IsTenantAdmin] passes [IsTenantAdminOrReadOnly]
    for every method; the latter lets an authenticated identity read
    ([GET], [HEAD], [OPTIONS]) whatever its role and even without a tenant,
    and lets it write exactly when its role is ["tenant_admin"]; [None] and
    the anonymous user are refused everything. *)
Theorem admin_or_read_only (user : request_user) (method : string) :
  (IsTenantAdmin.has_permission user = true ->
   IsTenantAdminOrReadOnly.has_permission user method = true)
  /\ (forall u, user = Identity u ->
        AuthenticatedUser.is_authenticated u = true ->
        (IsTenantAdminOrReadOnly.has_permission user method = true
         <-> method ∈ SAFE_METHODS
             \/ AuthenticatedUser.role u = Some "tenant_admin"))
  /\ (IsTenantAdminOrReadOnly.has_permission NoUser method = false
      /\ IsTenantAdminOrReadOnly.has_permission AnonymousUser method = false).
Proof.
  split_and!; [| |done..].
  - destruct user as [| |u]; simpl; [done..|].
    intros [-> Hrole%bool_decide_eq_true]%andb_true_iff. simpl.
    destruct (bool_decide (method ∈ SAFE_METHODS)); [done|].
    by apply bool_decide_eq_true.
  - intros u -> Hauth. simpl. rewrite Hauth. simpl.
    destruct (decide (method ∈ SAFE_METHODS)) as [Hsafe|Hsafe].
    + rewrite bool_decide_eq_true_2 by done. by split; [left|].
    + rewrite bool_decide_eq_false_2 by done.
      rewrite bool_decide_eq_true. simpl.
      split; [by right|by intros [?|?]].
Qed.

(** X11. [IsSameTenant] refuses an object without the attribute [tenant],
    refuses [None] and the anonymous user, and grants an identity exactly
    the objects whose tenant equals its own (same primary key, or both
    [None]); so two objects granted to one identity that has a tenant
    belong to one tenant, and an object of another tenant is refused. *)
Theorem same_tenant_only (u : AuthenticatedUser.t) (obj obj' : option (option Tenant.t)) :
  IsSameTenant.has_object_permission (Identity u) None = false
  /\ IsSameTenant.has_object_permission NoUser obj = false
  /\ IsSameTenant.has_object_permission AnonymousUser obj = false
  /\ (IsSameTenant.has_object_permission (Identity u) obj = true
      <-> exists t, obj = Some t /\ tenant_eq (AuthenticatedUser.tenant u) t = true)
  /\ (forall mine theirs,
        AuthenticatedUser.tenant u = Some mine -> obj = Some (Some theirs) ->
        Tenant.pk mine <> Tenant.pk theirs ->
        IsSameTenant.has_object_permission (Identity u) obj = false)
  /\ (forall mine,
        AuthenticatedUser.tenant u = Some mine ->
        IsSameTenant.has_object_permission (Identity u) obj = true ->
        IsSameTenant.has_object_permission (Identity u) obj' = true ->
        exists t t', obj = Some (Some t) /\ obj' = Some (Some t')
                     /\ Tenant.pk t = Tenant.pk t').
Proof.
  split_and!; try (by destruct obj).
  - destruct obj as [t|]; simpl; split.
    + intros Heq. eauto.
    + by intros (t' & [= <-] & Heq).
    + done.
    + by intros (t' & [=] & _).
  - intros mine theirs Hmine -> Hpk. simpl. rewrite Hmine. simpl.
    by apply bool_decide_eq_false.
  - intros mine Hmine.
    destruct obj as [[t|]|], obj' as [[t'|]|]; simpl; rewrite ?Hmine; simpl;
      try done.
    intros Hpk%bool_decide_eq_true Hpk'%bool_decide_eq_true.
    exists t, t'. split_and!; [done..|congruence].
Qed.

(** X12. The identity of a request that the middleware lets through passes
    [IsTenantUser], and [IsSameTenant] grants it an object exactly when the
    object's tenant has the primary key of the tenant the thread now
    reads. *)
Theorem let_through_identity_permitted `{Collaborators}
    (me : nat) (s s1 s' : State) (user : AuthenticatedUser.t) (token : string) :
  any_startswith (path (request s)) TenantMiddleware.EXCLUDED_PATHS = false ->
  AuthenticationService.authenticate s = (s1, Ok (Some (Some user, token))) ->
  TenantMiddleware.process_request me s = (s', Ok None) ->
  exists current,
    get_current_tenant me s' = (s', Ok (Some current))
    /\ Tenant.is_active current = true
    /\ IsTenantUser.has_permission (Identity user) = true
    /\ check_permissions TenantFilteredViewSet_permission_classes (Identity user)
       = true
    /\ (forall obj,
          check_object_permissions TenantFilteredViewSet_permission_classes
            (Identity user) obj = true
          <-> exists t, obj = Some (Some t) /\ Tenant.pk t = Tenant.pk current).
Proof.
  intros Hpath Hauth Hrun.
  pose proof (service_answer_authenticated _ _ _ _ Hauth) as Hmarked.
  rewrite process_request_run in Hrun. simpl in Hrun.
  rewrite Hpath, Hauth in Hrun. simpl in Hrun.
  destruct (AuthenticatedUser.tenant user) as [tenant|] eqn:Htenant; [|done].
  destruct (Tenant.is_active tenant) eqn:Hon; simpl in Hrun; [|done].
  injection Hrun as <-.
  exists tenant. split_and!.
  - unfold get_current_tenant, gets. simpl. by rewrite lookup_insert_eq.
  - done.
  - simpl. by rewrite Hmarked, ?Htenant.
  - simpl. by rewrite Hmarked, ?Htenant.
  - intros obj. unfold check_object_permissions. simpl.
    rewrite andb_true_r.
    destruct obj as [[t|]|]; simpl; rewrite ?Htenant; simpl.
    + rewrite bool_decide_eq_true. split.
      * intros Hpk. eauto.
      * by intros (t' & [= <-] & Hpk).
    + split; [done|]. by intros (t' & [=] & _).
    + split; [done|]. by intros (t' & [=] & _).
Qed.

Lemma let_through_identity_permitted_witness :
  exists current,
    get_current_tenant 1%nat
      (@TenantMiddleware.process_request sample_collaborators 1%nat
         (sample_state request_alpha sample_db)).1
    = ((@TenantMiddleware.process_request sample_collaborators 1%nat
          (sample_state request_alpha sample_db)).1,
       Ok (Some current))
    /\ Tenant.is_active current = true
    /\ IsTenantUser.has_permission
         (Identity (AuthenticatedUser.mk 10 (Some "tenant_user") 10 true
                      (Some (sample_tenant 1 "alpha" true)) false)) = true
    /\ check_permissions TenantFilteredViewSet_permission_classes
         (Identity (AuthenticatedUser.mk 10 (Some "tenant_user") 10 true
                      (Some (sample_tenant 1 "alpha" true)) false)) = true
    /\ (forall obj,
          check_object_permissions TenantFilteredViewSet_permission_classes
            (Identity (AuthenticatedUser.mk 10 (Some "tenant_user") 10 true
                         (Some (sample_tenant 1 "alpha" true)) false)) obj = true
          <-> exists t, obj = Some (Some t) /\ Tenant.pk t = Tenant.pk current).
Proof.
  eapply (@let_through_identity_permitted sample_collaborators 1%nat
            (sample_state request_alpha sample_db)).
  - reflexivity.
  - vm_compute. reflexivity.
  - vm_compute. reflexivity.
Defined.

(** X13. Test types: the actions [create], [update], [partial_update] and
    [destroy] are open exactly to authenticated identities whose role is
    ["tenant_admin"] (a tenant is not asked for at this point); every other
    action is open exactly to authenticated identities with a tenant. *)
Theorem test_type_permissions (action : string) (u : AuthenticatedUser.t) :
  AuthenticatedUser.is_authenticated u = true ->
  (action ∈ ["create"; "update"; "partial_update"; "destroy"] ->
   (check_permissions (TestTypeViewSet_get_permissions action) (Identity u) = true
    <-> AuthenticatedUser.role u = Some "tenant_admin"))
  /\ (action ∉ ["create"; "update"; "partial_update"; "destroy"] ->
      (check_permissions (TestTypeViewSet_get_permissions action) (Identity u) = true
       <-> AuthenticatedUser.tenant u <> None))
  /\ check_permissions (TestTypeViewSet_get_permissions action) NoUser = false
  /\ check_permissions (TestTypeViewSet_get_permissions action) AnonymousUser
     = false.
Proof.
  intros Hauth. unfold TestTypeViewSet_get_permissions, check_permissions.
  split_and!.
  - intros Hwrite. rewrite bool_decide_eq_true_2 by done. simpl.
    rewrite Hauth, andb_true_r. simpl. by rewrite bool_decide_eq_true.
  - intros Hread. rewrite bool_decide_eq_false_2 by done. simpl.
    rewrite Hauth, andb_true_r. simpl. by rewrite bool_decide_eq_true.
  - by case_bool_decide.
  - by case_bool_decide.
Qed.

Lemma test_type_permissions_witness :
  check_permissions (TestTypeViewSet_get_permissions "create")
    (Identity (AuthenticatedUser.mk 10 (Some "tenant_user") 10 true
                 (Some (sample_tenant 1 "alpha" true)) false)) = true
  <-> Some "tenant_user" = Some "tenant_admin".
Proof.
  apply (test_type_permissions "create"
           (AuthenticatedUser.mk 10 (Some "tenant_user") 10 true
              (Some (sample_tenant 1 "alpha" true)) false)).
  - reflexivity.
  - apply list_elem_of_here.
Defined.

(** ** Logging in *)

Section LoginFacts.
Context `{Accounts}.

Lemma foldl_newer_in (u : User.t) (rest : list User.t) :
  foldl newer u rest ∈ u :: rest.
Proof.
  revert u. induction rest as [|v rest IH]; intros u; simpl.
  { apply list_elem_of_here. }
  specialize (IH (newer u v)). unfold newer in *.
  destruct (User.created_at u <? User.created_at v).
  - by apply list_elem_of_further.
  - apply elem_of_cons in IH as [-> | Hrest].
    + apply list_elem_of_here.
    + by do 2 apply list_elem_of_further.
Qed.

(** The row that [first()] gives is a row of the table with that email. *)
Lemma first_by_email_sound d email u :
  first_by_email d email = Some u ->
  exists k, users d !! k = Some u /\ User.email u = email.
Proof.
  unfold first_by_email.
  destruct (users_with_email d email) as [|v rest] eqn:Hmatch; [done|].
  intros [= <-].
  pose proof (foldl_newer_in v rest) as Hin. rewrite <- Hmatch in Hin.
  unfold users_with_email in Hin.
  apply list_elem_of_filter in Hin as [Hemail Hin].
  apply list_elem_of_fmap in Hin as ([k u'] & Heq & Hin).
  apply elem_of_map_to_list in Hin. simpl in Heq. rewrite Heq in *. eauto.
Qed.

(** An accepted login is that of an active row of the table. *)
Lemma validate_accepted_active attrs d attrs' u :
  LoginSerializer.validate attrs d = Ok (Accepted (attrs', u)) ->
  User.is_active u = true /\ exists k, users d !! k = Some u.
Proof.
  unfold LoginSerializer.validate.
  destruct (attrs !! "email") as [email|]; [|done].
  destruct (attrs !! "password") as [password|]; [|done].
  destruct (truthy_str (Some email) && truthy_str (Some password)); [|done].
  destruct (first_by_email d email) as [user|] eqn:Hfirst; [|done].
  destruct (first_by_email_sound _ _ _ Hfirst) as (k & Hrow & _).
  destruct (negb (check_password password (User.password user))); [done|].
  destruct (User.is_active user) eqn:Hactive; simpl; [|done].
  destruct (negb (role_value (User.role user) =? "admin")%string).
  - destruct (fk_tenant d user) as [[t|]|e]; [|done..].
    destruct (negb (Tenant.is_active t)); [done|].
    intros [= <- <-]. eauto.
  - intros [= <- <-]. eauto.
Qed.
End LoginFacts.

(** X14. A login that [LoginSerializer.validate] accepts returns the
    attributes as given, with a user that is a row under the given email,
    whose stored password matches the given one, who is active, and who is
    an administrator or belongs to an active tenant. *)
Theorem login_sound `{Accounts}
    (attrs attrs' : gmap string string) (d : Database) (u : User.t) :
  LoginSerializer.validate attrs d = Ok (Accepted (attrs', u)) ->
  attrs' = attrs
  /\ exists email password k,
       attrs !! "email" = Some email /\ attrs !! "password" = Some password
       /\ email <> "" /\ password <> ""
       /\ users d !! k = Some u /\ User.email u = email
       /\ check_password password (User.password u) = true
       /\ User.is_active u = true
       /\ (User.role u = ADMIN
           \/ exists t, fk_tenant d u = Ok (Some t) /\ Tenant.is_active t = true).
Proof.
  unfold LoginSerializer.validate.
  destruct (attrs !! "email") as [email|]; [|done].
  destruct (attrs !! "password") as [password|]; [|done].
  destruct email as [|c email]; [done|].
  destruct password as [|c' password]; [done|]. simpl.
  destruct (first_by_email d (String c email)) as [user|] eqn:Hfirst; [|done].
  destruct (check_password _ _) eqn:Hcheck; simpl; [|done].
  destruct (User.is_active user) eqn:Hactive; simpl; [|done].
  destruct (first_by_email_sound _ _ _ Hfirst) as (k & Hrow & Hemail).
  destruct (User.role user) eqn:Hrole; simpl.
  1, 2: destruct (fk_tenant d user) as [[t|]|e] eqn:Hfk; [|done..];
        destruct (Tenant.is_active t) eqn:Hon; simpl; [|done];
        intros [= <- <-]; split; [done|];
        exists (String c email), (String c' password), k;
        split_and!; try done; right; eauto.
  intros [= <- <-]. split; [done|].
  exists (String c email), (String c' password), k.
  split_and!; try done. by left.
Qed.

(** X15. An email without a row and a wrong password for an existing row
    get the same answer, whatever the state of the account (the password
    is tested before [is_active] and before the tenant). *)
Theorem login_failures_indistinguishable `{Accounts}
    (attrs : gmap string string) (d : Database) (email password : string) :
  attrs !! "email" = Some email -> attrs !! "password" = Some password ->
  email <> "" -> password <> "" ->
  first_by_email d email = None
  \/ (exists u, first_by_email d email = Some u
                /\ check_password password (User.password u) = false) ->
  LoginSerializer.validate attrs d
  = Ok (ValidationError "Unable to log in with provided credentials.").
Proof.
  intros Hemail Hpassword Hne Hne' Hwhy.
  unfold LoginSerializer.validate. rewrite Hemail, Hpassword.
  destruct email as [|c email]; [done|].
  destruct password as [|c' password]; [done|]. simpl.
  destruct Hwhy as [-> | (u & -> & ->)]; done.
Qed.

(** X16. After [Tenant.deactivate], and still after a following
    [Tenant.activate], no login is accepted for a user of that tenant. *)
Theorem no_login_after_deactivation `{Accounts}
    (t row : Tenant.t) (d : Database) (attrs attrs' : gmap string string)
    (u : User.t) :
  tenants d !! Tenant.pk t = Some row ->
  (LoginSerializer.validate attrs
     (TenantModel.database (TenantModel.deactivate (TenantModel.mkStore t d)).1)
   = Ok (Accepted (attrs', u))
   \/ LoginSerializer.validate attrs
        (TenantModel.database
           (TenantModel.activate
              (TenantModel.deactivate (TenantModel.mkStore t d)).1).1)
      = Ok (Accepted (attrs', u))) ->
  User.tenant_id u <> Some (Tenant.pk t).
Proof.
  intros Hrow Hlogin Hmember.
  assert (Hoff : forall k,
            users (TenantModel.database
                     (TenantModel.deactivate (TenantModel.mkStore t d)).1) !! k
            = Some u -> User.is_active u = false).
  { rewrite (deactivate_run t d row Hrow). simpl. intros k.
    rewrite lookup_fmap.
    destruct (users d !! k) as [u0|]; simpl; [|done].
    intros [= <-]. clear Hlogin. by case_decide. }
  destruct Hlogin as [Hlogin | Hlogin];
    apply validate_accepted_active in Hlogin as (Hactive & k & Hk).
  - rewrite (Hoff k Hk) in Hactive. done.
  - rewrite activate_users in Hk. rewrite (Hoff k Hk) in Hactive. done.
Qed.

Lemma login_sound_witness :
  login_attrs "d@alpha" "secret" = login_attrs "d@alpha" "secret"
  /\ exists email password k,
       login_attrs "d@alpha" "secret" !! "email" = Some email
       /\ login_attrs "d@alpha" "secret" !! "password" = Some password
       /\ email <> "" /\ password <> ""
       /\ users login_db !! k = Some (sample_login_user 30 (Some 1) "d@alpha" TENANT_USER)
       /\ User.email (sample_login_user 30 (Some 1) "d@alpha" TENANT_USER) = email
       /\ @check_password sample_accounts password
            (User.password (sample_login_user 30 (Some 1) "d@alpha" TENANT_USER))
          = true
       /\ User.is_active (sample_login_user 30 (Some 1) "d@alpha" TENANT_USER) = true
       /\ (User.role (sample_login_user 30 (Some 1) "d@alpha" TENANT_USER) = ADMIN
           \/ exists t,
                fk_tenant login_db
                  (sample_login_user 30 (Some 1) "d@alpha" TENANT_USER)
                = Ok (Some t)
                /\ Tenant.is_active t = true).
Proof.
  apply (@login_sound sample_accounts (login_attrs "d@alpha" "secret")
           (login_attrs "d@alpha" "secret") login_db
           (sample_login_user 30 (Some 1) "d@alpha" TENANT_USER)).
  vm_compute. reflexivity.
Defined.

Lemma login_failures_indistinguishable_witness :
  @LoginSerializer.validate sample_accounts (login_attrs "d@alpha" "guess") login_db
  = Ok (ValidationError "Unable to log in with provided credentials.").
Proof.
  apply (@login_failures_indistinguishable sample_accounts
           (login_attrs "d@alpha" "guess") login_db "d@alpha" "guess").
  - reflexivity.
  - reflexivity.
  - discriminate.
  - discriminate.
  - right. exists (sample_login_user 30 (Some 1) "d@alpha" TENANT_USER).
    split; vm_compute; reflexivity.
Defined.

Lemma no_login_after_deactivation_witness :
  User.tenant_id (sample_login_user 31 (Some 2) "e@beta" TENANT_USER) <> Some 1.
Proof.
  apply (@no_login_after_deactivation sample_accounts
           (sample_tenant 1 "alpha" true) (sample_tenant 1 "alpha" true) login_db
           (login_attrs "e@beta" "secret") (login_attrs "e@beta" "secret")
           (sample_login_user 31 (Some 2) "e@beta" TENANT_USER)).
  - reflexivity.
  - left. vm_compute. reflexivity.
Defined.

(** X17. An administrator without a tenant is accepted at login (the
    tenant test is skipped for the role [admin]), but a request to a
    protected path that carries a token of that user is answered 403
    "No tenant associated with user". *)
Theorem admin_without_tenant `{Accounts} `{Collaborators}
    (attrs : gmap string string) (email password token : string) (p : Token)
    (user_id : Z) (u : User.t) (me : nat) (s : State) :
  attrs !! "email" = Some email -> attrs !! "password" = Some password ->
  email <> "" -> password <> "" ->
  first_by_email (db s) email = Some u ->
  check_password password (User.password u) = true ->
  User.is_active u = true -> User.role u = ADMIN -> User.tenant_id u = None ->
  users (db s) !! user_id = Some u ->
  presents s token -> UntypedToken token = Ok p -> token_bool p = true ->
  claim_user_id p = Some user_id ->
  any_startswith (path (request s)) TenantMiddleware.EXCLUDED_PATHS = false ->
  any_startswith (path (request s)) PUBLIC_URL = false ->
  LoginSerializer.validate attrs (db s) = Ok (Accepted (attrs, u))
  /\ (TenantMiddleware.process_request me s).2
     = Ok (Some TenantMiddleware.no_tenant).
Proof.
  intros Hemail Hpassword Hne Hne' Hfirst Hcheck Hactive Hrole Hfk Hrow
    Hpresents Hparse Htruthy Hsub Hpath Hprivate.
  split.
  - unfold LoginSerializer.validate. rewrite Hemail, Hpassword.
    destruct email as [|c email]; [done|].
    destruct password as [|c' password]; [done|]. simpl.
    by rewrite Hfirst, Hcheck, Hactive, Hrole.
  - assert (Htenant : (user_tenant u s).2 = Ok None).
    { unfold user_tenant. by rewrite Hfk. }
    pose proof (good_token_run s token p user_id u None
                  Hpresents Hparse Htruthy Hsub Hrow Htenant) as Hrun.
    rewrite process_request_run. simpl. rewrite Hpath.
    unfold AuthenticationService.authenticate, bind, gets, try_except, ret.
    simpl. rewrite Hprivate. unfold bind. by rewrite Hrun.
Qed.

Lemma admin_without_tenant_witness :
  @LoginSerializer.validate sample_accounts (login_attrs "root@lab" "secret")
    login_db
  = Ok (Accepted (login_attrs "root@lab" "secret",
                  sample_login_user 42 None "root@lab" ADMIN))
  /\ (@TenantMiddleware.process_request sample_collaborators 0%nat
        (sample_state
           (sample_request "/api/v1/patients/" (Some "Bearer tok42")) login_db)).2
     = Ok (Some TenantMiddleware.no_tenant).
Proof.
  apply (@admin_without_tenant sample_accounts sample_collaborators
           (login_attrs "root@lab" "secret") "root@lab" "secret" "tok42"
           (mkToken (Some 42) (Some "tenant_user")) 42
           (sample_login_user 42 None "root@lab" ADMIN) 0%nat
           (sample_state
              (sample_request "/api/v1/patients/" (Some "Bearer tok42"))
              login_db)).
  all: try reflexivity.
  all: try discriminate.
  exists "Bearer tok42". split_and!; reflexivity.
Defined.

(** ** Counting a tenant's active users *)

(** X18. After [Tenant.deactivate] the count of active users that
    [TenantSerializer.get_user_count] reports for the tenant is 0, and it
    is still 0 after a following [Tenant.activate]; the count of any other
    tenant is what it was. *)
Theorem user_count_after_deactivation (t row other : Tenant.t) (d : Database) :
  tenants d !! Tenant.pk t = Some row ->
  TenantSerializer.get_user_count t
    (TenantModel.database (TenantModel.deactivate (TenantModel.mkStore t d)).1)
  = 0%nat
  /\ TenantSerializer.get_user_count t
       (TenantModel.database
          (TenantModel.activate
             (TenantModel.deactivate (TenantModel.mkStore t d)).1).1)
     = 0%nat
  /\ (Tenant.pk other <> Tenant.pk t ->
      TenantSerializer.get_user_count other
        (TenantModel.database (TenantModel.deactivate (TenantModel.mkStore t d)).1)
      = TenantSerializer.get_user_count other d).
Proof.
  intros Hrow. unfold TenantSerializer.get_user_count.
  rewrite activate_users, (deactivate_run t d row Hrow). simpl.
  assert (Hnone :
    filter (fun kv : Z * User.t =>
              User.tenant_id kv.2 = Some (Tenant.pk t)
              /\ User.is_active kv.2 = true)
      ((fun u : User.t =>
          if decide (User.tenant_id u = Some (Tenant.pk t))
          then User.set_is_active false u else u) <$> users d) = ∅).
  { apply map_empty_filter. intros k u' Hu' [Hfk Hactive]. simpl in *.
    rewrite lookup_fmap in Hu'.
    destruct (users d !! k) as [u|]; simpl in Hu'; [|done].
    injection Hu' as <-. by case_decide. }
  rewrite Hnone. split_and!; [done..|].
  intros Hother. f_equal. apply map_eq. intros k. apply option_eq. intros u'.
  rewrite !map_lookup_filter_Some, lookup_fmap. simpl.
  destruct (users d !! k) as [u|]; simpl; [|naive_solver].
  case_decide as Hfk; [|naive_solver].
  split.
  - intros [[= <-] [Hfk' _]]. simpl in Hfk'. congruence.
  - intros [[= <-] [Hfk' _]]. congruence.
Qed.

Lemma user_count_after_deactivation_witness :
  TenantSerializer.get_user_count (sample_tenant 1 "alpha" true)
    (TenantModel.database
       (TenantModel.deactivate
          (TenantModel.mkStore (sample_tenant 1 "alpha" true) sample_db)).1)
  = 0%nat
  /\ TenantSerializer.get_user_count (sample_tenant 1 "alpha" true)
       (TenantModel.database
          (TenantModel.activate
             (TenantModel.deactivate
                (TenantModel.mkStore (sample_tenant 1 "alpha" true) sample_db)).1).1)
     = 0%nat
  /\ (Tenant.pk (sample_tenant 2 "beta" true)
      <> Tenant.pk (sample_tenant 1 "alpha" true) ->
      TenantSerializer.get_user_count (sample_tenant 2 "beta" true)
        (TenantModel.database
           (TenantModel.deactivate
              (TenantModel.mkStore (sample_tenant 1 "alpha" true) sample_db)).1)
      = TenantSerializer.get_user_count (sample_tenant 2 "beta" true) sample_db).
Proof.
  apply (user_count_after_deactivation (sample_tenant 1 "alpha" true)
           (sample_tenant 1 "alpha" true) (sample_tenant 2 "beta" true)
           sample_db).
  reflexivity.
Defined.

(** Before it, the count is not trivially 0. *)
Example sample_user_count :
  TenantSerializer.get_user_count (sample_tenant 1 "alpha" true) sample_db = 2%nat.
Proof. vm_compute. reflexivity. Qed.

(** ** Creating users *)

(** X19. [UserCreateSerializer.create] in a thread that reads no tenant
    answers with the validation error "Cannot create user without tenant
    context." and leaves the state as it is: [create_user] is not called.
    This is the case right after [process_request] has let an excluded path
    through. [validate_role] accepts ["tenant_admin"] and ["tenant_user"]
    and nothing else. *)
Theorem user_create_needs_tenant_context `{Accounts} `{Collaborators}
    (me : nat) (validated_data : gmap string string) (value : string) (s : State) :
  ((get_current_tenant me s).2 = Ok None ->
   UserCreateSerializer.create me validated_data s
   = (s, Ok (ValidationError "Cannot create user without tenant context.")))
  /\ (any_startswith (path (request s)) TenantMiddleware.EXCLUDED_PATHS = true ->
      UserCreateSerializer.create me validated_data
        (TenantMiddleware.process_request me s).1
      = ((TenantMiddleware.process_request me s).1,
         Ok (ValidationError "Cannot create user without tenant context.")))
  /\ (UserCreateSerializer.validate_role value = Accepted value
      <-> value = "tenant_admin" \/ value = "tenant_user").
Proof.
  assert (Hempty : forall s0,
    (get_current_tenant me s0).2 = Ok None ->
    UserCreateSerializer.create me validated_data s0
    = (s0, Ok (ValidationError "Cannot create user without tenant context."))).
  { intros s0. unfold UserCreateSerializer.create, bind, get_current_tenant, gets.
    simpl. by intros [= ->]. }
  split_and!.
  - apply Hempty.
  - intros Hpath. apply Hempty.
    rewrite process_request_run. simpl. rewrite Hpath.
    unfold get_current_tenant, gets. simpl. by rewrite lookup_delete_eq.
  - unfold UserCreateSerializer.validate_role. simpl.
    case_bool_decide as Hin; split; try done.
    + intros _. apply elem_of_cons in Hin as [-> | Hin]; [by left|].
      apply list_elem_of_singleton in Hin as ->. by right.
    + intros [-> | ->]; destruct Hin.
      * apply list_elem_of_here.
      * apply list_elem_of_further, list_elem_of_here.
Qed.

(** ** Patients *)

(** X20. [Patient.age] is not negative exactly when the date of birth is
    not after today; it never goes down as the day advances; it is one more
    on the same day a year later; and on a day with the month and day of
    birth it is the difference of the years. *)
Theorem patient_age (p : Patient.t) (today later : date) :
  (0 <= Patient.age today p <-> date_le (Patient.date_of_birth p) today)
  /\ (date_le today later -> Patient.age today p <= Patient.age later p)
  /\ Patient.age (mkDate (year today + 1) (month today) (day today)) p
     = Patient.age today p + 1
  /\ (month today = month (Patient.date_of_birth p) ->
      day today = day (Patient.date_of_birth p) ->
      Patient.age today p = year today - year (Patient.date_of_birth p)).
Proof.
  unfold Patient.age, pair_lt, date_le.
  destruct (Patient.date_of_birth p) as [by_ bm bd].
  destruct today as [ty tm td], later as [ly lm ld]. simpl.
  split_and!.
  - destruct (Z.ltb_spec tm bm), (Z.eqb_spec tm bm), (Z.ltb_spec td bd);
      simpl; lia.
  - destruct (Z.ltb_spec tm bm), (Z.eqb_spec tm bm), (Z.ltb_spec td bd),
      (Z.ltb_spec lm bm), (Z.eqb_spec lm bm), (Z.ltb_spec ld bd); simpl; lia.
  - destruct ((tm <? bm) || (tm =? bm) && (td <? bd)); lia.
  - intros -> ->. rewrite !Z.ltb_irrefl, Z.eqb_refl. simpl. lia.
Qed.

(** The leap-day patient on the last of February and the first of March
    of a common year. *)
Example sample_patient_age :
  Patient.age (mkDate 2023 2 28) (sample_patient 2 1 (mkDate 2000 2 29)) = 22
  /\ Patient.age (mkDate 2023 3 1) (sample_patient 2 1 (mkDate 2000 2 29)) = 23.
Proof. split; reflexivity. Qed.

(** X21. For an identity with a tenant, [get_queryset] returns exactly the
    patients whose tenant key is that tenant's; [IsSameTenant] grants each
    of them; an identity of another tenant gets a result that shares no row
    with it, and an identity without a tenant gets none. *)
Theorem queryset_is_tenant_scoped
    (u u' : AuthenticatedUser.t) (rows : gmap Z Patient.t) (mine : Tenant.t) :
  AuthenticatedUser.tenant u = Some mine ->
  exists qs,
    TenantFilteredViewSet.get_queryset (Identity u) rows = Ok qs
    /\ (forall k p, qs !! k = Some p
                    <-> rows !! k = Some p /\ Patient.tenant_id p = Tenant.pk mine)
    /\ (forall k p owner, qs !! k = Some p ->
          Tenant.pk owner = Patient.tenant_id p ->
          IsSameTenant.has_object_permission (Identity u) (Some (Some owner)) = true)
    /\ (forall theirs qs',
          AuthenticatedUser.tenant u' = Some theirs ->
          Tenant.pk theirs <> Tenant.pk mine ->
          TenantFilteredViewSet.get_queryset (Identity u') rows = Ok qs' ->
          forall k, qs !! k = None \/ qs' !! k = None)
    /\ (AuthenticatedUser.tenant u' = None ->
        TenantFilteredViewSet.get_queryset (Identity u') rows = Ok ∅).
Proof.
  intros Hmine. eexists. simpl. rewrite Hmine. split; [reflexivity|].
  split_and!.
  - intros k p. by rewrite map_lookup_filter_Some.
  - intros k p owner [_ Hfk]%map_lookup_filter_Some Howner. simpl in *.
    apply bool_decide_eq_true. congruence.
  - intros theirs qs' Htheirs Hne. rewrite Htheirs. intros [= <-] k.
    destruct (rows !! k) as [p|] eqn:Hrow.
    + destruct (decide (Patient.tenant_id p = Tenant.pk mine)) as [Hfk|Hfk].
      * right. apply map_lookup_filter_None. right.
        intros p' Hp'. rewrite Hrow in Hp'. injection Hp' as <-.
        simpl. congruence.
      * left. apply map_lookup_filter_None. right.
        intros p' Hp'. rewrite Hrow in Hp'. by injection Hp' as <-.
    + left. apply map_lookup_filter_None. by left.
  - by intros ->.
Qed.

Lemma queryset_is_tenant_scoped_witness :
  exists qs,
    TenantFilteredViewSet.get_queryset
      (Identity (AuthenticatedUser.mk 10 (Some "tenant_user") 10 true
                   (Some (sample_tenant 1 "alpha" true)) false))
      sample_patients = Ok qs
    /\ (forall k p, qs !! k = Some p
                    <-> sample_patients !! k = Some p
                        /\ Patient.tenant_id p = Tenant.pk (sample_tenant 1 "alpha" true))
    /\ (forall k p owner, qs !! k = Some p ->
          Tenant.pk owner = Patient.tenant_id p ->
          IsSameTenant.has_object_permission
            (Identity (AuthenticatedUser.mk 10 (Some "tenant_user") 10 true
                         (Some (sample_tenant 1 "alpha" true)) false))
            (Some (Some owner)) = true)
    /\ (forall theirs qs',
          AuthenticatedUser.tenant
            (AuthenticatedUser.mk 20 (Some "tenant_user") 20 true
               (Some (sample_tenant 2 "beta" true)) false) = Some theirs ->
          Tenant.pk theirs <> Tenant.pk (sample_tenant 1 "alpha" true) ->
          TenantFilteredViewSet.get_queryset
            (Identity (AuthenticatedUser.mk 20 (Some "tenant_user") 20 true
                         (Some (sample_tenant 2 "beta" true)) false))
            sample_patients = Ok qs' ->
          forall k, qs !! k = None \/ qs' !! k = None)
    /\ (AuthenticatedUser.tenant
          (AuthenticatedUser.mk 20 (Some "tenant_user") 20 true
             (Some (sample_tenant 2 "beta" true)) false) = None ->
        TenantFilteredViewSet.get_queryset
          (Identity (AuthenticatedUser.mk 20 (Some "tenant_user") 20 true
                       (Some (sample_tenant 2 "beta" true)) false))
          sample_patients = Ok ∅).
Proof.
  apply (queryset_is_tenant_scoped
           (AuthenticatedUser.mk 10 (Some "tenant_user") 10 true
              (Some (sample_tenant 1 "alpha" true)) false)
           (AuthenticatedUser.mk 20 (Some "tenant_user") 20 true
              (Some (sample_tenant 2 "beta" true)) false)
           sample_patients (sample_tenant 1 "alpha" true)).
  reflexivity.
Defined.

(** ** What the hooks leave alone *)

(** X22. Each hook of the middleware, run by one thread, leaves the
    database and what any other thread reads from the context as they
    were. *)
Theorem hooks_touch_only_own_context `{Collaborators}
    (me other : nat) (response : JsonResponse) (exception : exn) (s : State) :
  me <> other ->
  (db (TenantMiddleware.process_request me s).1 = db s
   /\ get_current_tenant other (TenantMiddleware.process_request me s).1
      = ((TenantMiddleware.process_request me s).1, (get_current_tenant other s).2))
  /\ (db (TenantMiddleware.process_response me response s).1 = db s
      /\ get_current_tenant other (TenantMiddleware.process_response me response s).1
         = ((TenantMiddleware.process_response me response s).1,
            (get_current_tenant other s).2))
  /\ (db (TenantMiddleware.process_exception me exception s).1 = db s
      /\ get_current_tenant other
           (TenantMiddleware.process_exception me exception s).1
         = ((TenantMiddleware.process_exception me exception s).1,
            (get_current_tenant other s).2)).
Proof.
  intros Hne.
  destruct (process_request_effect me s) as (Hdb & Hothers & _).
  rewrite process_response_run, process_exception_run.
  unfold get_current_tenant, gets. simpl.
  rewrite (Hothers other) by done.
  rewrite lookup_delete_ne by done. done.
Qed.

Lemma hooks_touch_only_own_context_witness :
  db (@TenantMiddleware.process_request sample_collaborators 1%nat
        (sample_state request_alpha sample_db)).1
  = db (sample_state request_alpha sample_db)
  /\ get_current_tenant 2%nat
       (@TenantMiddleware.process_request sample_collaborators 1%nat
          (sample_state request_alpha sample_db)).1
     = ((@TenantMiddleware.process_request sample_collaborators 1%nat
           (sample_state request_alpha sample_db)).1,
        (get_current_tenant 2%nat (sample_state request_alpha sample_db)).2).
Proof.
  apply (@hooks_touch_only_own_context sample_collaborators 1%nat 2%nat
           ok_response TypeError (sample_state request_alpha sample_db)).
  lia.
Defined.

(** ** Deactivating again, and deactivating a tenant whose row is gone *)

(** X23. On a stored tenant, [Tenant.deactivate] run a second time changes
    nothing more, and [Tenant.deactivate] after [Tenant.activate] ends in
    the state that [Tenant.deactivate] alone gives. *)
Theorem deactivate_absorbs (t row : Tenant.t) (d : Database) :
  tenants d !! Tenant.pk t = Some row ->
  TenantModel.deactivate (TenantModel.deactivate (TenantModel.mkStore t d)).1
  = ((TenantModel.deactivate (TenantModel.mkStore t d)).1, Ok tt)
  /\ TenantModel.deactivate (TenantModel.activate (TenantModel.mkStore t d)).1
     = TenantModel.deactivate (TenantModel.mkStore t d).
Proof.
  intros Hrow.
  rewrite (deactivate_run t d row Hrow), (activate_run t d row Hrow). simpl.
  split.
  - rewrite (deactivate_run _ _ (Tenant.set_is_active false row))
      by apply lookup_insert_eq.
    simpl. rewrite insert_insert_eq. do 3 f_equal.
    rewrite <- map_fmap_compose. apply map_fmap_ext.
    intros k u _. simpl. repeat case_decide; done.
  - rewrite (deactivate_run _ _ (Tenant.set_is_active true row))
      by apply lookup_insert_eq.
    simpl. by rewrite insert_insert_eq.
Qed.

Lemma deactivate_absorbs_witness :
  TenantModel.deactivate
    (TenantModel.deactivate
       (TenantModel.mkStore (sample_tenant 1 "alpha" true) sample_db)).1
  = ((TenantModel.deactivate
        (TenantModel.mkStore (sample_tenant 1 "alpha" true) sample_db)).1, Ok tt)
  /\ TenantModel.deactivate
       (TenantModel.activate
          (TenantModel.mkStore (sample_tenant 1 "alpha" true) sample_db)).1
     = TenantModel.deactivate
         (TenantModel.mkStore (sample_tenant 1 "alpha" true) sample_db).
Proof.
  apply (deactivate_absorbs (sample_tenant 1 "alpha" true)
           (sample_tenant 1 "alpha" true) sample_db).
  reflexivity.
Defined.

(** X24. On a tenant instance that has a primary key but no row under it
    (its row was deleted), [Tenant.deactivate] and [Tenant.activate] raise
    [DatabaseError] out of [save]; no row of either table changes, the
    users are not touched, but the instance in memory already carries the
    new flag. *)
Theorem missing_row_raises (t : Tenant.t) (d : Database) :
  tenants d !! Tenant.pk t = None ->
  TenantModel.deactivate (TenantModel.mkStore t d)
  = (TenantModel.mkStore (Tenant.set_is_active false t) d, Raise DatabaseError)
  /\ TenantModel.activate (TenantModel.mkStore t d)
     = (TenantModel.mkStore (Tenant.set_is_active true t) d, Raise DatabaseError).
Proof.
  intros Hrow.
  unfold TenantModel.deactivate, TenantModel.activate, bind,
    TenantModel.assign_is_active, TenantModel.save_is_active, modify.
  simpl. by rewrite Hrow.
Qed.

Lemma missing_row_raises_witness :
  TenantModel.deactivate (TenantModel.mkStore (sample_tenant 9 "gamma" true) sample_db)
  = (TenantModel.mkStore (Tenant.set_is_active false (sample_tenant 9 "gamma" true))
       sample_db,
     Raise DatabaseError)
  /\ TenantModel.activate
       (TenantModel.mkStore (sample_tenant 9 "gamma" true) sample_db)
     = (TenantModel.mkStore (Tenant.set_is_active true (sample_tenant 9 "gamma" true))
          sample_db,
        Raise DatabaseError).
Proof.
  apply (missing_row_raises (sample_tenant 9 "gamma" true) sample_db).
  reflexivity.
Defined.
